(** * PeRFception, JaxNeRF (torch port): the radiance network and its
      Lightning wrapper

    A shallow embedding of [src/model/jaxnerf_torch/model.py]: the class
    [NeRF] (constructor and [forward]) and the class [LitJaxNeRF]
    ([create_model], [training_step], [gather_results],
    [validation_epoch_end]).

    Tensors are modelled at rank two, [batch x channels], which is the
    shape the network is queried with; rank-one tensors (depth maps,
    biases) are plain lists.  An operation of torch that can raise is a
    function into [result]. *)

From Stdlib Require Import ZArith List Lia Bool.
From Stdlib Require Import SpecFloat.
From stdpp Require Import gmap strings list fin_maps.

(** ** Exceptions and the result monad *)

Inductive exn : Type :=
| SplitSizeError (dim_size : nat) (sizes : list nat)
    (* torch.split: the sizes do not sum to the size of the dimension *)
| MatmulShapeError (cols in_feat : nat)
    (* F.linear: mat1 and mat2 shapes cannot be multiplied *)
| CatShapeError
    (* torch.cat: sizes of tensors must match except in the cat dimension *)
| CatEmptyError
    (* torch.cat: expected a non-empty list of tensors *)
| ReshapeError
    (* Tensor.reshape: shape is invalid for the input size *)
| BroadcastError
    (* the sizes of two operands do not match and none of them is 1 *)
| AttributeError (name : string)
| KeyError (key : string)
| UnboundLocalError (name : string).

Inductive result (A : Type) : Type :=
| Ok (a : A)
| Raise (e : exn).
Arguments Ok {A} a.
Arguments Raise {A} e.

#[global] Instance result_ret : MRet result := fun _ a => Ok a.
#[global] Instance result_bind : MBind result := fun _ _ f r =>
  match r with
  | Ok a => f a
  | Raise e => Raise e
  end.

Definition is_Ok {A} (r : result A) : bool :=
  match r with Ok _ => true | Raise _ => false end.

(** ** Tensors *)

Record tensor (A : Type) : Type := Tensor { ncols : nat; rows : list (list A) }.
Arguments Tensor {A} ncols rows.
Arguments ncols {A} t.
Arguments rows {A} t.

Definition wf_tensor {A} (t : tensor A) : Prop :=
  Forall (fun r => length r = ncols t) (rows t).

Definition nrows {A} (t : tensor A) : nat := length (rows t).

(** The shape [[batch, channels]] of a rank-two tensor. *)
Definition shape {A} (t : tensor A) : nat * nat := (nrows t, ncols t).

(** [torch.split(x, [a, b], dim=-1)] *)
Definition torch_split {A} (x : tensor A) (a b : nat)
  : result (tensor A * tensor A) :=
  if ncols x =? a + b
  then Ok (Tensor a (map (take a) (rows x)),
           Tensor b (map (fun r => take b (drop a r)) (rows x)))
  else Raise (SplitSizeError (ncols x) [a; b]).

(** [torch.cat([t1, t2], -1)] *)
Definition cat_last {A} (t1 t2 : tensor A) : result (tensor A) :=
  if nrows t1 =? nrows t2
  then Ok (Tensor (ncols t1 + ncols t2) (zip_with app (rows t1) (rows t2)))
  else Raise CatShapeError.

(** [torch.cat(ts)] along dimension 0, on rank-two tensors. *)
Definition cat_rows {A} (ts : list (tensor A)) : result (tensor A) :=
  match ts with
  | [] => Raise CatEmptyError
  | t :: ts' =>
      if forallb (fun u => ncols u =? ncols t) ts'
      then Ok (Tensor (ncols t) (concat (map rows ts)))
      else Raise CatShapeError
  end.

(** [torch.cat(vs)] on rank-one tensors. *)
Definition cat_vec {A} (vs : list (list A)) : result (list A) :=
  match vs with
  | [] => Raise CatEmptyError
  | _ => Ok (concat vs)
  end.

(** ** Scalars

    The network is arithmetic-agnostic: it only adds, multiplies and
    rectifies.  The element type is kept abstract so that every theorem
    holds for whatever arithmetic the backend implements. *)

Class Scalar (R : Type) : Type := {
  zero : R;
  add : R -> R -> R;
  mul : R -> R -> R;
  relu : R -> R
}.

#[global] Instance Z_Scalar : Scalar Z :=
  {| zero := 0%Z; add := Z.add; mul := Z.mul; relu := Z.max 0 |}.

(** ** Parameters and their allocation

    An [nn.Parameter] is an object: it has an identity besides its data.
    Construction draws fresh identities from a counter and initial data
    from an initialiser, and records each constructed network. *)

Record nn_Parameter (T : Type) : Type := Param { pid : nat; pdata : T }.
Arguments Param {T} pid pdata.
Arguments pid {T} _.
Arguments pdata {T} _.

Record heap : Type := Heap { next_pid : nat; nerf_built : nat }.

Definition alloc (A : Type) : Type := heap -> A * heap.

#[global] Instance alloc_ret : MRet alloc := fun _ a s => (a, s).
#[global] Instance alloc_bind : MBind alloc := fun _ _ f c s =>
  let '(a, s') := c s in f a s'.

Fixpoint mapM {A B} (f : A -> alloc B) (l : list A) : alloc (list B) :=
  match l with
  | [] => mret []
  | a :: l' => b ← f a; bs ← mapM f l'; mret (b :: bs)
  end.

Definition tabulate {A} (n : nat) (f : nat -> A) : list A := map f (seq 0 n).

Section Network.
Context {R : Type} `{Scalar R}.
(** [init p i j]: the initial value of entry [(i, j)] of the parameter
    with identity [p] (torch draws it at random). *)
Variable init : nat -> nat -> nat -> R.

Definition new_param {T} (mk : nat -> T) : alloc (nn_Parameter T) :=
  fun s => (Param (next_pid s) (mk (next_pid s)),
            Heap (S (next_pid s)) (nerf_built s)).

Record Linear : Type := MkLinear {
  in_features : nat;
  out_features : nat;
  weight : nn_Parameter (list (list R));   (* [out_features, in_features] *)
  bias : nn_Parameter (list R)             (* [out_features] *)
}.

(** [nn.Linear(in_features, out_features)] *)
Definition nn_Linear (inf outf : nat) : alloc Linear :=
  w ← new_param (fun p => tabulate outf (fun o => tabulate inf (fun i => init p o i)));
  b ← new_param (fun p => tabulate outf (fun o => init p o 0));
  mret (MkLinear inf outf w b).

Definition dot (w x : list R) : R := foldr add zero (zip_with mul x w).

(** One row of [F.linear(x, weight, bias)]. *)
Definition affine (l : Linear) (x : list R) : list R :=
  zip_with (fun w b => add (dot w x) b) (pdata (weight l)) (pdata (bias l)).

Definition Linear_forward (l : Linear) (t : tensor R) : result (tensor R) :=
  if ncols t =? in_features l
  then Ok (Tensor (out_features l) (map (affine l) (rows t)))
  else Raise (MatmulShapeError (ncols t) (in_features l)).

Definition F_relu (t : tensor R) : tensor R :=
  Tensor (ncols t) (map (map relu) (rows t)).

(** *** class NeRF *)

Record NeRF : Type := MkNeRF {
  D : nat;
  W : nat;
  input_ch : nat;
  input_ch_views : nat;
  skips : list nat;
  use_viewdirs : bool;
  pts_linears : list Linear;
  views_linears : list Linear;
  feature_linear : option Linear;
  alpha_linear : option Linear;
  rgb_linear : option Linear;
  output_linear : option Linear
}.

Definition getattr {A} (name : string) (o : option A) : result A :=
  match o with
  | Some a => Ok a
  | None => Raise (AttributeError name)
  end.

(** The heads built under [if use_viewdirs: ... else: ...]. *)
Definition NeRF_heads (W output_ch : nat) (use_viewdirs : bool)
  : alloc (option Linear * option Linear * option Linear * option Linear) :=
  if use_viewdirs
  then (fl ← nn_Linear W W;
        al ← nn_Linear W 1;
        rl ← nn_Linear (W / 2) 3;
        mret (Some fl, Some al, Some rl, None))
  else (ol ← nn_Linear W output_ch;
        mret (None, None, None, Some ol)).

(** The end of a constructor call: one more network exists. *)
Definition built {A} (a : A) : alloc A :=
  fun s => (a, Heap (next_pid s) (S (nerf_built s))).

(** [NeRF.__init__] *)
Definition NeRF_init (D W input_ch input_ch_views output_ch : nat)
    (skips : list nat) (use_viewdirs : bool) : alloc NeRF :=
  l0 ← nn_Linear input_ch W;
  ls ← mapM (fun i => if bool_decide (i ∈ skips)
                      then nn_Linear (W + input_ch) W
                      else nn_Linear W W)
            (seq 0 (D - 1));
  v0 ← nn_Linear (input_ch_views + W) (W / 2);
  hs ← NeRF_heads W output_ch use_viewdirs;
  let '(fl, al, rl, ol) := hs in
  built (MkNeRF D W input_ch input_ch_views skips use_viewdirs
                (l0 :: ls) [v0] fl al rl ol).

(** The loop [for i, l in enumerate(self.pts_linears)], from index [i]. *)
Fixpoint trunk_loop (skips : list nat) (input_pts : tensor R)
    (i : nat) (ls : list Linear) (h : tensor R) : result (tensor R) :=
  match ls with
  | [] => Ok h
  | l :: ls' =>
      h ← Linear_forward l h;
      h ← (let h := F_relu h in
           if bool_decide (i ∈ skips) then cat_last input_pts h else Ok h);
      trunk_loop skips input_pts (S i) ls' h
  end.

(** The loop [for i, l in enumerate(self.views_linears)]. *)
Fixpoint views_loop (ls : list Linear) (h : tensor R) : result (tensor R) :=
  match ls with
  | [] => Ok h
  | l :: ls' =>
      h ← Linear_forward l h;
      views_loop ls' (F_relu h)
  end.

Definition trunk (m : NeRF) (input_pts : tensor R) : result (tensor R) :=
  trunk_loop (skips m) input_pts 0 (pts_linears m) input_pts.

(** [NeRF.forward] *)
Definition forward (m : NeRF) (x : tensor R) : result (tensor R) :=
  '(input_pts, input_views) ← torch_split x (input_ch m) (input_ch_views m);
  h ← trunk m input_pts;
  if use_viewdirs m then
    al ← getattr "alpha_linear" (alpha_linear m);
    alpha ← Linear_forward al h;
    fl ← getattr "feature_linear" (feature_linear m);
    feature ← Linear_forward fl h;
    h ← cat_last feature input_views;
    h ← views_loop (views_linears m) h;
    rl ← getattr "rgb_linear" (rgb_linear m);
    rgb ← Linear_forward rl h;
    cat_last rgb alpha
  else
    ol ← getattr "output_linear" (output_linear m);
    Linear_forward ol h.

End Network.

(** ** Python values, slices and dictionaries *)

(** [l[:k]] for a Python integer [k]: a negative stop counts from the
    end, and the stop is clamped to the bounds. *)
Definition slice_to {A} (k : Z) (l : list A) : list A :=
  let n := Z.of_nat (length l) in
  let stop := if (k <? 0)%Z then Z.max (k + n) 0 else Z.min k n in
  take (Z.to_nat stop) l.

Definition tensor_slice_to {A} (k : Z) (t : tensor A) : tensor A :=
  Tensor (ncols t) (slice_to k (rows t)).

(** [d[key]] *)
Definition dict_get {V} (d : gmap string V) (key : string) : result V :=
  match d !! key with
  | Some v => Ok v
  | None => Raise (KeyError key)
  end.

(** [{k : d[k] for k in d}] *)
Definition dict_copy {V} (d : gmap string V) : gmap string V :=
  map_imap (fun k _ => d !! k) d.

(** Reading a local variable that an earlier branch may have left
    unassigned. *)
Definition read_local {A} (name : string) (v : option A) : result A :=
  match v with
  | Some a => Ok a
  | None => Raise (UnboundLocalError name)
  end.

(** Python floats are binary64; tensors hold binary32. *)
Definition py_zero : spec_float := S754_zero false.

Section Lightning.
Context {R : Type} `{Scalar R}.
Variable init : nat -> nat -> nat -> R.

Definition embed_fn : Type := tensor R -> tensor R.

(** The closure [network_query_fn] with what it captures. *)
Record query_fn : Type := QueryFn {
  q_embed_fn : embed_fn;
  q_embeddirs_fn : option embed_fn;
  q_netchunk : Z
}.

Inductive value : Type :=
| VBool (b : bool)
| VInt (z : Z)
| VFloat (f : spec_float)
| VNone
| VNet (m : @NeRF R)
| VQuery (q : query_fn).

(** The options of the configuration that [LitJaxNeRF] reads. *)
Record Args : Type := MkArgs {
  multires : Z;
  multires_views : Z;
  i_embed : Z;
  use_viewdirs_arg : bool;
  num_fine_samples : Z;
  num_coarse_samples : Z;
  netdepth : nat;
  netwidth : nat;
  netdepth_fine : nat;
  netwidth_fine : nat;
  netchunk : Z;
  chunk : Z;
  perturb : value;
  white_bkgd : value;
  raw_noise_std : value;
  dataset_type : string;
  no_ndc : bool;
  lindisp : value;
  use_pixel_centers : value
}.

Record Info : Type := MkInfo {
  info_h : nat;
  info_w : nat;
  info_intrinsics : value;
  info_val_dummy : Z;
  info_test_dummy : Z;
  info_near : value;
  info_far : value
}.

(** [embedder.get_embedder(multires, i_embed)], an external
    collaborator: it returns the embedding and its channel count. *)
Variable get_embedder : Z -> Z -> embed_fn * nat.

Definition option_value (o : option (@NeRF R)) : value :=
  match o with
  | Some m => VNet m
  | None => VNone
  end.

(** *** class LitJaxNeRF *)

(** [5 if args.num_fine_samples > 0 else 4] *)
Definition configured_output_ch (a : Args) : nat :=
  if (0 <? num_fine_samples a)%Z then 5 else 4.

Record LitJaxNeRF : Type := MkLit {
  args : Args;
  info : Info;
  img_size : nat;
  model : @NeRF R;
  model_fine : option (@NeRF R);
  render_kwargs_train : gmap string value;
  render_kwargs_test : gmap string value;
  start : Z;
  mode : option string
}.

(** The dictionary literal bound to [render_kwargs_train], with the two
    entries added under [if args.dataset_type != "llff" or args.no_ndc]. *)
Definition make_render_kwargs_train (a : Args) (i : Info)
    (network_query_fn : query_fn) (model : @NeRF R)
    (model_fine : option (@NeRF R)) : gmap string value :=
  let render_kwargs_train : gmap string value :=
    <["far" := info_far i]>
    (<["near" := info_near i]>
    (<["raw_noise_std" := raw_noise_std a]>
    (<["white_bkgd" := white_bkgd a]>
    (<["use_viewdirs" := VBool (use_viewdirs_arg a)]>
    (<["network_fn" := VNet model]>
    (<["num_coarse_samples" := VInt (num_coarse_samples a)]>
    (<["network_fine" := option_value model_fine]>
    (<["num_fine_samples" := VInt (num_fine_samples a)]>
    (<["perturb" := perturb a]>
    (<["network_query_fn" := VQuery network_query_fn]> ∅)))))))))) in
  if bool_decide (dataset_type a ≠ "llff") || no_ndc a
  then <["lindisp" := lindisp a]> (<["ndc" := VBool false]> render_kwargs_train)
  else render_kwargs_train.

Definition make_render_kwargs_test (render_kwargs_train : gmap string value)
  : gmap string value :=
  <["raw_noise_std" := VFloat py_zero]>
  (<["perturb" := VBool false]> (dict_copy render_kwargs_train)).

(** [LitJaxNeRF.create_model], as the part of [__init__] that follows
    the unpacking of [info]. *)
Definition create_model (a : Args) (i : Info) : alloc LitJaxNeRF :=
  let '(embed, input_ch) := get_embedder (multires a) (i_embed a) in
  let '(embeddirs_fn, input_ch_views) :=
    if use_viewdirs_arg a
    then (let '(f, n) := get_embedder (multires_views a) (i_embed a) in (Some f, n))
    else (None, 0) in
  let output_ch := configured_output_ch a in
  let skips := [4] in
  model ← NeRF_init init (netdepth a) (netwidth a) input_ch input_ch_views
            output_ch skips (use_viewdirs_arg a);
  model_fine ←
    (if (0 <? num_fine_samples a)%Z
     then m ← NeRF_init init (netdepth_fine a) (netwidth_fine a) input_ch
                input_ch_views output_ch skips (use_viewdirs_arg a);
          mret (Some m)
     else mret None);
  let network_query_fn := QueryFn embed embeddirs_fn (netchunk a) in
  let render_kwargs_train :=
    make_render_kwargs_train a i network_query_fn model model_fine in
  let render_kwargs_test := make_render_kwargs_test render_kwargs_train in
  mret (MkLit a i (info_h i * info_w i) model model_fine
              render_kwargs_train render_kwargs_test 0 None).

(** [LitJaxNeRF.__init__] *)
Definition LitJaxNeRF_init (a : Args) (i : Info) : alloc LitJaxNeRF :=
  create_model a i.

(** The lifecycle hooks set [self.mode]. *)
Definition on_train_start (self : LitJaxNeRF) : LitJaxNeRF :=
  MkLit (args self) (info self) (img_size self) (model self) (model_fine self)
        (render_kwargs_train self) (render_kwargs_test self) (start self)
        (Some "train").

Definition on_validation_start (self : LitJaxNeRF) : LitJaxNeRF :=
  MkLit (args self) (info self) (img_size self) (model self) (model_fine self)
        (render_kwargs_train self) (render_kwargs_test self) (start self)
        (Some "val").

(** What [utils.render] returns: [(rgb, disp, acc, depth, extras)]. *)
Record render_out : Type := RenderOut {
  r_rgb : tensor R;
  r_disp : list R;
  r_acc : list R;
  r_depth : list R;
  r_extras : gmap string (tensor R)
}.

(** [utils.render(h, w, intrinsics, chunk=, rays=, use_pixel_centers=,
    **kwargs)] and the two loss helpers of [model.jaxnerf_torch.utils],
    external to this file. *)
Variable utils_render :
  nat -> nat -> value -> Z -> tensor R -> value -> gmap string value ->
  result render_out.
Variable img2mse : tensor R -> tensor R -> R.
Variable mse2psnr : R -> R.

(** [LitJaxNeRF.forward] *)
Definition Lit_forward (self : LitJaxNeRF) (batch_rays : tensor R)
  : result render_out :=
  mode ← getattr "mode" (mode self);
  let kwargs := if bool_decide (mode = "train")
                then render_kwargs_train self
                else render_kwargs_test self in
  utils_render (info_h (info self)) (info_w (info self))
               (info_intrinsics (info self)) (chunk (args self)) batch_rays
               (use_pixel_centers (args self)) kwargs.

(** Code that logs: the entries logged so far are threaded through, and
    an exception keeps the entries logged before it. *)
Definition logs : Type := list (string * R).
Definition py (A : Type) : Type := logs -> result A * logs.

#[global] Instance py_ret : MRet py := fun _ a lg => (Ok a, lg).
#[global] Instance py_bind : MBind py := fun _ _ f c lg =>
  match c lg with
  | (Ok a, lg') => f a lg'
  | (Raise e, lg') => (Raise e, lg')
  end.

Definition lift {A} (r : result A) : py A := fun lg => (r, lg).

(** [self.log(name, v, ...)] *)
Definition self_log (name : string) (v : R) : py unit :=
  fun lg => (Ok tt, lg ++ [(name, v)]).

(** [LitJaxNeRF.training_step] *)
Definition training_step (self : LitJaxNeRF)
    (batch : gmap string (tensor R)) (batch_idx : nat) : py R :=
  batch_rays ← lift (dict_get batch "ray");
  target ← lift (dict_get batch "target");
  out ← lift (Lit_forward self batch_rays);
  let img_loss := img2mse (r_rgb out) target in
  let loss1 := img_loss in
  let loss := loss1 in
  let psnr := mse2psnr img_loss in
  let '(psnr0, loss) :=
    match r_extras out !! "rgb0" with
    | Some rgb0 =>
        let loss0 := img2mse rgb0 target in
        (Some (mse2psnr loss0), add loss loss0)
    | None => (None, loss)
    end in
  self_log "train/psnr1" psnr;;
  psnr0 ← lift (read_local "psnr0" psnr0);
  self_log "train/psnr0" psnr0;;
  self_log "train/loss" loss;;
  mret loss.

End Lightning.

(** ** Epoch ends: gathering the step outputs *)

Fixpoint mapR {X Y} (f : X -> result Y) (l : list X) : result (list Y) :=
  match l with
  | [] => Ok []
  | x :: l' => y ← f x; ys ← mapR f l'; mret (y :: ys)
  end.

Section Gather.
Context {A : Type}.

(** What [render_rays] returns for one step: the dictionary with the
    keys ["rgb"], ["depth"] and ["target"]. *)
Record step_output : Type := StepOut {
  o_rgb : tensor A;      (* [n, 3] *)
  o_depth : list A;      (* [n] *)
  o_target : tensor A    (* [n, 3] *)
}.

(** The same dictionary after the collective gather: every tensor has a
    new leading dimension, one slice per process. *)
Record gathered_output : Type := Gathered {
  g_rgb : list (tensor A);
  g_depth : list (list A);
  g_target : list (tensor A)
}.

(** [self.all_gather], the collective of the distributed strategy. *)
Variable all_gather : list step_output -> list gathered_output.

(** [LitJaxNeRF.gather_results] *)
Definition gather_results (outputs : list step_output) (dummy_num : Z)
  : result (tensor A * tensor A * list A) :=
  let outputs_gather := all_gather outputs in
  ts ← mapR (fun out => cat_rows (g_rgb out)) outputs_gather;
  rgbs ← cat_rows ts;
  ts ← mapR (fun out => cat_rows (g_target out)) outputs_gather;
  target ← cat_rows ts;
  vs ← mapR (fun out => cat_vec (g_depth out)) outputs_gather;
  depths ← cat_vec vs;
  if bool_decide (dummy_num ≠ 0%Z)
  then Ok (tensor_slice_to (- dummy_num) rgbs,
           tensor_slice_to (- dummy_num) target,
           slice_to (- dummy_num) depths)
  else Ok (rgbs, target, depths).

(** The rows of all steps and all processes, in gathering order. *)
Definition gathered_rows (field : gathered_output -> list (tensor A))
    (gs : list gathered_output) : list (list A) :=
  concat (map (fun g => concat (map rows (field g))) gs).

Definition gathered_depths (gs : list gathered_output) : list A :=
  concat (map (fun g => concat (g_depth g)) gs).

(** A gathered step is a stack of at least one process slice, and every
    slice of a field has the same channel count [c]. *)
Definition stacked (c : nat) (ts : list (tensor A)) : Prop :=
  ts ≠ [] ∧ Forall (fun t => ncols t = c) ts.

Definition gathered_ok (c : nat) (g : gathered_output) : Prop :=
  stacked c (g_rgb g) ∧ stacked c (g_target g) ∧ g_depth g ≠ [].

(** [kept] is [full] with exactly its last [d] rows removed. *)
Definition drops_last {X} (d : nat) (full kept : list X) : Prop :=
  ∃ removed, length removed = d ∧ full = kept ++ removed.

End Gather.

(** ** Validation PSNR, in binary32 arithmetic *)

Definition f32_prec : Z := 24.
Definition f32_emax : Z := 128.
Definition f32_add : spec_float -> spec_float -> spec_float := SFadd f32_prec f32_emax.
Definition f32_sub : spec_float -> spec_float -> spec_float := SFsub f32_prec f32_emax.
Definition f32_mul : spec_float -> spec_float -> spec_float := SFmul f32_prec f32_emax.
Definition f32_div : spec_float -> spec_float -> spec_float := SFdiv f32_prec f32_emax.
Definition f32_of_nat (n : nat) : spec_float :=
  binary_normalize f32_prec f32_emax (Z.of_nat n) 0 false.

(** The literal [-10.0] and the scalar [np.log(10)], as binary32. *)
Definition neg_ten : spec_float := S754_finite true 10485760 (-20).
Definition np_log_10 : spec_float := S754_finite false 9657742 (-22).

Definition is_finite (x : spec_float) : bool :=
  match x with
  | S754_zero _ | S754_finite _ _ _ => true
  | S754_infinity _ | S754_nan => false
  end.

(** [t.reshape(-1, c)] *)
Definition reshape_rows {A} (c : nat) (t : tensor A) : result (tensor A) :=
  let flat := concat (rows t) in
  if c =? 0 then Raise ReshapeError
  else if length flat mod c =? 0
       then Ok (Tensor c (reshape (replicate (length flat / c) c) flat))
       else Raise ReshapeError.

(** [a - b] on rank-two tensors of one channel count; a single row is
    broadcast against many. *)
Definition tensor_sub (a b : tensor spec_float) : result (tensor spec_float) :=
  if negb (ncols a =? ncols b) then Raise BroadcastError
  else if nrows a =? nrows b
  then Ok (Tensor (ncols a) (zip_with (zip_with f32_sub) (rows a) (rows b)))
  else match rows a, rows b with
       | [ra], _ => Ok (Tensor (ncols a) (map (fun rb => zip_with f32_sub ra rb) (rows b)))
       | _, [rb] => Ok (Tensor (ncols a) (map (fun ra => zip_with f32_sub ra rb) (rows a)))
       | _, _ => Raise BroadcastError
       end.

(** [torch.mean] of one row. *)
Definition f32_mean (r : list spec_float) : spec_float :=
  f32_div (foldl f32_add (S754_zero false) r) (f32_of_nat (length r)).

Section Validation.
Context {R : Type}.
(** [torch.log] on one element; the logarithm is not an IEEE basic
    operation, so it is taken from the backend. *)
Variable tlog : spec_float -> spec_float.
Variable all_gather :
  list (@step_output spec_float) -> list (@gathered_output spec_float).

(** The per-image PSNR of line 273, from the per-image error. *)
Definition psnr_of_mse (mse : spec_float) : spec_float :=
  f32_div (f32_mul neg_ten (tlog mse)) np_log_10.

(** The per-image mean-squared error of [validation_epoch_end]:
    everything up to [torch.mean(..., dim=1)]. *)
Definition validation_mse (self : @LitJaxNeRF R)
    (outputs : list (@step_output spec_float)) : result (list spec_float) :=
  '(rgbs, target, _) ← gather_results all_gather outputs (info_val_dummy (info self));
  rgbs ← reshape_rows (img_size self * 3) rgbs;
  target ← reshape_rows (img_size self * 3) target;
  diff ← tensor_sub target rgbs;
  mret (map (fun r => f32_mean (map (fun d => f32_mul d d) r)) (rows diff)).

(** The per-image PSNR vector of [validation_epoch_end]. *)
Definition validation_psnr (self : @LitJaxNeRF R)
    (outputs : list (@step_output spec_float)) : result (list spec_float) :=
  mse ← validation_mse self outputs;
  mret (map psnr_of_mse mse).

(** [LitJaxNeRF.validation_epoch_end] *)
Definition validation_epoch_end (self : @LitJaxNeRF R)
    (outputs : list (@step_output spec_float)) : @py spec_float unit :=
  psnr ← lift (validation_psnr self outputs);
  let psnr_mean := f32_mean psnr in
  self_log "validation/psnr" psnr_mean.

End Validation.

(** ** The evaluation steps *)

Section Steps.
Context {R : Type}.
Variable utils_render :
  nat -> nat -> @value R -> Z -> tensor R -> @value R ->
  gmap string (@value R) -> result (@render_out R).

Definition on_test_start (self : @LitJaxNeRF R) : @LitJaxNeRF R :=
  MkLit (args self) (info self) (img_size self) (model self) (model_fine self)
        (render_kwargs_train self) (render_kwargs_test self) (start self)
        (Some "test").

(** [LitJaxNeRF.render_rays]; the returned dictionary has the keys
    ["rgb"], ["depth"] and ["target"]. *)
Definition render_rays (self : @LitJaxNeRF R)
    (batch : gmap string (tensor R)) (batch_idx : nat)
  : result (@step_output R) :=
  batch_rays ← dict_get batch "ray";
  target ← dict_get batch "target";
  out ← Lit_forward utils_render self batch_rays;
  mret (StepOut (r_rgb out) (r_depth out) target).

Definition validation_step (self : @LitJaxNeRF R)
    (batch : gmap string (tensor R)) (batch_idx : nat)
  : result (@step_output R) :=
  render_rays self batch batch_idx.

Definition test_step (self : @LitJaxNeRF R)
    (batch : gmap string (tensor R)) (batch_idx : nat)
  : result (@step_output R) :=
  render_rays self batch batch_idx.

End Steps.

(** ** [run.py]: the callback [ValEveryNSteps] *)

(** An integer operation of Python either returns or raises
    [ZeroDivisionError]. *)
Inductive int_result (A : Type) : Type :=
| Returns (a : A)
| ZeroDivisionError.
Arguments Returns {A} a.
Arguments ZeroDivisionError {A}.

(** [a % b] on Python integers: the remainder of the floored division,
    with the sign of [b]. *)
Definition py_mod (a b : Z) : int_result Z :=
  if (b =? 0)%Z then ZeroDivisionError else Returns (a mod b)%Z.

Section Callback.
(** The trainer, with its step counter and its evaluation loop. *)
Context {Trainer : Type}.
Variable global_step : Trainer -> Z.
Variable run_evaluation : Trainer -> Trainer.

(** [ValEveryNSteps.on_batch_end] *)
Definition on_batch_end (every_n_step : Z) (trainer : Trainer)
  : int_result Trainer :=
  match py_mod (global_step trainer) every_n_step with
  | ZeroDivisionError => ZeroDivisionError
  | Returns r =>
      if (r =? 0)%Z && negb (global_step trainer =? 0)%Z
      then Returns (run_evaluation trainer)
      else Returns trainer
  end.

End Callback.


(** A float that is a number other than zero. *)
Definition f32_nonzero_number (x : spec_float) : bool :=
  match x with
  | S754_finite _ _ _ | S754_infinity _ => true
  | S754_zero _ | S754_nan => false
  end.

(** ** Specification vocabulary *)

Section NetworkSpec.
Context {R : Type} `{Scalar R}.

(** A layer of the stated sizes whose parameters have the shapes that
    [nn.Linear] gives them. *)
Definition linear_ok (i o : nat) (l : @Linear R) : Prop :=
  in_features l = i ∧ out_features l = o ∧
  length (pdata (weight l)) = o ∧ length (pdata (bias l)) = o.

(** The layers built by the comprehension of [__init__], from range
    index [i] on. *)
Fixpoint trunk_layers_ok (skips : list nat) (ic W : nat) (i : nat)
    (ls : list (@Linear R)) : Prop :=
  match ls with
  | [] => True
  | l :: ls' =>
      linear_ok (if bool_decide (i ∈ skips) then W + ic else W) W l ∧
      trunk_layers_ok skips ic W (S i) ls'
  end.

Definition params_Linear (l : @Linear R) : list nat :=
  [pid (weight l); pid (bias l)].

(** The identities of [m.parameters()], in registration order. *)
Definition parameters (m : @NeRF R) : list nat :=
  concat (map params_Linear
            (pts_linears m ++ views_linears m ++
             option_list (feature_linear m) ++ option_list (alpha_linear m) ++
             option_list (rgb_linear m) ++ option_list (output_linear m))).

(** The number of [nn.Linear] layers that [__init__] builds. *)
Definition layer_count (D : nat) (use_viewdirs : bool) : nat :=
  1 + (D - 1) + 1 + (if use_viewdirs then 3 else 1).

(** The heads that [__init__] builds in either mode. *)
Definition heads_ok (W output_ch : nat) (use_viewdirs : bool)
    (fl al rl ol : option (@Linear R)) : Prop :=
  if use_viewdirs
  then exists f a r, fl = Some f ∧ al = Some a ∧ rl = Some r ∧ ol = None ∧
         linear_ok W W f ∧ linear_ok W 1 a ∧ linear_ok (W / 2) 3 r
  else exists o, fl = None ∧ al = None ∧ rl = None ∧ ol = Some o ∧
         linear_ok W output_ch o.

(** The view-dependent head as the specification words it: density
    is one linear layer on the trunk features [h]; a linear layer gives a
    feature vector, which is joined with the encoded view direction, put
    through the half-width layer and a rectifier, and then through the
    three-channel layer; the output is (RGB, density). *)
Definition view_dependent_head_spec (al fl v0 rl : @Linear R)
    (h views : tensor R) : tensor R :=
  let alpha := map (affine al) (rows h) in
  let feature := map (affine fl) (rows h) in
  let hidden :=
    map (fun r => map relu (affine v0 r)) (zip_with app feature (rows views)) in
  let rgb := map (affine rl) hidden in
  Tensor (3 + 1) (zip_with app rgb alpha).

End NetworkSpec.

(** ** Sample configurations

    Small concrete networks and batches over integer scalars, on which
    the definitions above evaluate. *)

Definition sample_init (p i j : nat) : Z :=
  (Z.of_nat p + Z.of_nat i - Z.of_nat j)%Z.

Definition fresh_heap : heap := Heap 0 0.

Definition sample_embedder (multires i_embed : Z) : @embed_fn Z * nat :=
  (id, Z.to_nat multires).

(** Hierarchical sampling with view directions, at a small width. *)
Definition sample_args : @Args Z :=
  MkArgs 1 1 0 true 128 64 2 2 2 2 1024 1024
         (VFloat (S754_finite false 4503599627370496 (-52))) (VBool false)
         (VFloat py_zero) "blender" false (VBool false) (VBool false).

(** The same without the fine network and without view directions. *)
Definition sample_args_coarse : @Args Z :=
  MkArgs 1 1 0 false 0 64 2 2 2 2 1024 1024
         (VFloat (S754_finite false 4503599627370496 (-52))) (VBool false)
         (VFloat py_zero) "llff" false (VBool false) (VBool false).

(** The first configuration with [netdepth = 5]: the last trunk layer
    then has the index of the skip that [create_model] fixes. *)
Definition sample_args_depth5 : @Args Z :=
  MkArgs 1 1 0 true 128 64 5 2 2 2 1024 1024
         (VFloat (S754_finite false 4503599627370496 (-52))) (VBool false)
         (VFloat py_zero) "blender" false (VBool false) (VBool false).

Definition sample_info : @Info Z :=
  MkInfo 1 1 VNone 2 0 (VInt 2) (VInt 6).

Definition sample_lit : @LitJaxNeRF Z :=
  (LitJaxNeRF_init sample_init sample_embedder sample_args sample_info fresh_heap).1.

Definition sample_lit_depth5 : @LitJaxNeRF Z :=
  (LitJaxNeRF_init sample_init sample_embedder sample_args_depth5 sample_info
     fresh_heap).1.

Definition sample_lit_coarse : @LitJaxNeRF Z :=
  (LitJaxNeRF_init sample_init sample_embedder sample_args_coarse sample_info
     fresh_heap).1.

(** A stand-in renderer: it reports a coarse pass exactly when a fine
    network is configured. *)
Definition sample_render (h w : nat) (intrinsics : @value Z) (chunk : Z)
    (rays : tensor Z) (use_pixel_centers : @value Z)
    (kwargs : gmap string (@value Z)) : result (@render_out Z) :=
  Ok (RenderOut rays [] [] []
        (match kwargs !! "network_fine" with
         | Some (VNet _) => {["rgb0" := rays]}
         | _ => ∅
         end)).

Definition sample_img2mse (a b : tensor Z) : Z :=
  foldr Z.add 0%Z
    (zip_with (fun x y => ((x - y) * (x - y))%Z) (concat (rows a)) (concat (rows b))).

Definition sample_mse2psnr (mse : Z) : Z := (- mse)%Z.

Definition sample_batch : tensor Z := Tensor 2 [[1; 2]; [3; 4]]%Z.
Definition sample_batch' : tensor Z := Tensor 2 [[1; 7]; [3; 9]]%Z.
Definition sample_narrow_batch : tensor Z := Tensor 1 [[1]; [3]]%Z.

(** Two processes that hold the same shard: a stand-in for the
    collective gather. *)
Definition sample_all_gather {A} (outputs : list (@step_output A))
  : list (@gathered_output A) :=
  map (fun o => Gathered [o_rgb o; o_rgb o] [o_depth o; o_depth o]
                         [o_target o; o_target o]) outputs.

Definition sample_step : @step_output Z :=
  StepOut (Tensor 3 [[1; 2; 3]; [4; 5; 6]]%Z) [7; 8]%Z
          (Tensor 3 [[1; 2; 3]; [4; 5; 7]]%Z).

Definition sample_short_step : @step_output Z :=
  StepOut (Tensor 3 [[1; 2; 3]]%Z) [7]%Z (Tensor 3 [[1; 2; 4]]%Z).

Definition f32_one : spec_float := S754_finite false 8388608 (-23).
Definition f32_half : spec_float := S754_finite false 8388608 (-24).

(** One step of two pixels; the first pixel is rendered exactly. *)
Definition sample_val_step : @step_output spec_float :=
  StepOut (Tensor 3 [[f32_one; f32_half; f32_one]; [f32_half; f32_half; f32_half]])
          [f32_one; f32_half]
          (Tensor 3 [[f32_one; f32_half; f32_one]; [f32_half; f32_one; f32_half]]).

(** A stand-in logarithm with the IEEE value at zero. *)
Definition sample_log (x : spec_float) : spec_float :=
  match x with
  | S754_zero _ => S754_infinity true
  | _ => x
  end.

(** One step of two pixels, both rendered exactly. *)
Definition sample_perfect_step : @step_output spec_float :=
  StepOut (Tensor 3 [[f32_one; f32_half; f32_one]; [f32_half; f32_half; f32_half]])
          [f32_one; f32_half]
          (Tensor 3 [[f32_one; f32_half; f32_one]; [f32_half; f32_half; f32_half]]).

(** A trainer that is its step counter paired with the number of
    evaluations run. *)
Definition sample_run_evaluation (t : Z * nat) : Z * nat := (t.1, S t.2).

Definition sample_train_batch : gmap string (tensor Z) :=
  {["ray" := sample_batch; "target" := sample_batch']}.

Definition sample_view_net : @NeRF Z :=
  (NeRF_init sample_init 2 2 1 1 4 [4] true fresh_heap).1.
Definition sample_plain_net : @NeRF Z :=
  (NeRF_init sample_init 2 2 1 1 5 [4] false fresh_heap).1.

(** ** Tensors and layers *)

Lemma bind_Ok {A B} (a : A) (f : A -> result B) : (Ok a ≫= f) = f a.
Proof. reflexivity. Qed.

Lemma wf_tensor_map {A B} (f : list A -> list B) (t : tensor A) (c : nat) :
  (forall r, length (f r) = c) -> wf_tensor (Tensor c (map f (rows t))).
Proof.
  intros Hf. unfold wf_tensor. simpl.
  apply Forall_forall. intros r Hr. apply list_elem_of_In, in_map_iff in Hr.
  destruct Hr as (r0 & <- & _). apply Hf.
Qed.

Lemma torch_split_ok {A} (x : tensor A) (a b : nat) :
  ncols x = a + b ->
  torch_split x a b =
    Ok (Tensor a (map (take a) (rows x)),
        Tensor b (map (fun r => take b (drop a r)) (rows x))).
Proof. intros E. unfold torch_split. rewrite E, Nat.eqb_refl. reflexivity. Qed.

Lemma torch_split_raise {A} (x : tensor A) (a b : nat) :
  ncols x ≠ a + b ->
  torch_split x a b = Raise (SplitSizeError (ncols x) [a; b]).
Proof.
  intros E. unfold torch_split.
  destruct (Nat.eqb_spec (ncols x) (a + b)); [contradiction | reflexivity].
Qed.

Lemma wf_take {A} (x : tensor A) (a : nat) :
  wf_tensor x -> a <= ncols x -> wf_tensor (Tensor a (map (take a) (rows x))).
Proof.
  unfold wf_tensor. simpl. intros Hwf Ha.
  induction Hwf as [|r rs Hr _ IH]; simpl; constructor; [|exact IH].
  rewrite length_take. lia.
Qed.

Lemma wf_take_drop {A} (x : tensor A) (a b : nat) :
  wf_tensor x -> ncols x = a + b ->
  wf_tensor (Tensor b (map (fun r => take b (drop a r)) (rows x))).
Proof.
  unfold wf_tensor. simpl. intros Hwf Hab.
  induction Hwf as [|r rs Hr _ IH]; simpl; constructor; [|exact IH].
  rewrite length_take, length_drop. lia.
Qed.

Lemma split_rejoin {A} (a b : nat) (rs : list (list A)) :
  Forall (fun r => length r = a + b) rs ->
  zip_with app (map (take a) rs) (map (fun r => take b (drop a r)) rs) = rs.
Proof.
  induction 1 as [|r rs Hr _ IH]; simpl; [reflexivity|].
  rewrite IH. f_equal.
  rewrite (take_ge (drop a r)) by (rewrite length_drop; lia).
  apply take_drop.
Qed.

Lemma cat_last_ok {A} (t1 t2 : tensor A) :
  nrows t1 = nrows t2 ->
  cat_last t1 t2 = Ok (Tensor (ncols t1 + ncols t2) (zip_with app (rows t1) (rows t2))).
Proof. intros E. unfold cat_last. rewrite E, Nat.eqb_refl. reflexivity. Qed.

Lemma wf_zip_app {A} (c1 c2 : nat) (r1 r2 : list (list A)) :
  Forall (fun r => length r = c1) r1 ->
  Forall (fun r => length r = c2) r2 ->
  Forall (fun r => length r = c1 + c2) (zip_with app r1 r2).
Proof.
  intros H1. revert r2.
  induction H1 as [|a r1 Ha _ IH]; intros r2 H2; simpl; [constructor|].
  destruct H2 as [|b r2 Hb H2]; constructor.
  - rewrite length_app. lia.
  - apply IH, H2.
Qed.

Section NetworkFacts.
Context {R : Type} `{Scalar R}.
Variable init : nat -> nat -> nat -> R.

Lemma affine_length {i o : nat} {l : @Linear R} (x : list R) :
  linear_ok i o l -> length (affine l x) = o.
Proof.
  intros (_ & _ & Hw & Hb). unfold affine.
  rewrite length_zip_with_l_eq; lia.
Qed.

Lemma Linear_forward_ok {i o : nat} {l : @Linear R} (t : tensor R) :
  linear_ok i o l -> ncols t = i ->
  Linear_forward l t = Ok (Tensor o (map (affine l) (rows t))).
Proof.
  intros (Hi & Ho & _) Ht. unfold Linear_forward.
  rewrite Ht, Hi, Nat.eqb_refl, Ho. reflexivity.
Qed.

Lemma Linear_forward_raise {i o : nat} {l : @Linear R} (t : tensor R) :
  linear_ok i o l -> ncols t ≠ i ->
  Linear_forward l t = Raise (MatmulShapeError (ncols t) i).
Proof.
  intros (Hi & _) Ht. unfold Linear_forward. rewrite Hi.
  destruct (Nat.eqb_spec (ncols t) i); [contradiction | reflexivity].
Qed.

Lemma wf_affine {i o : nat} {l : @Linear R} (t : tensor R) :
  linear_ok i o l -> wf_tensor (Tensor o (map (affine l) (rows t))).
Proof. intros Hl. apply wf_tensor_map. intros r. eapply affine_length, Hl. Qed.

Lemma wf_relu {t : tensor R} : wf_tensor t -> wf_tensor (F_relu t).
Proof.
  unfold wf_tensor, F_relu. simpl. intros Hwf.
  induction Hwf as [|r rs Hr _ IH]; simpl; constructor; [|exact IH].
  rewrite length_map. exact Hr.
Qed.

(** *** The constructors *)

Lemma nn_Linear_spec (i o : nat) (s : heap) :
  exists l,
    nn_Linear init i o s = (l, Heap (2 + next_pid s) (nerf_built s)) ∧
    linear_ok i o l ∧
    params_Linear l = seq (next_pid s) 2.
Proof.
  eexists. split; [reflexivity|]. split; [|reflexivity].
  repeat split; simpl; unfold tabulate; rewrite length_map, length_seq; reflexivity.
Qed.

Lemma mapM_layers_spec (skips : list nat) (ic W : nat) (n a : nat) (s : heap) :
  exists ls,
    mapM (fun i => if bool_decide (i ∈ skips)
                   then nn_Linear init (W + ic) W
                   else nn_Linear init W W) (seq a n) s
      = (ls, Heap (2 * n + next_pid s) (nerf_built s)) ∧
    trunk_layers_ok skips ic W a ls ∧
    length ls = n ∧
    concat (map params_Linear ls) = seq (next_pid s) (2 * n).
Proof.
  revert a s. induction n as [|n IH]; intros a s.
  - exists []. destruct s. repeat split; reflexivity.
  - destruct (nn_Linear_spec
                (if bool_decide (a ∈ skips) then W + ic else W) W s)
      as (l & El & Hl & Pl).
    destruct (IH (S a) (Heap (2 + next_pid s) (nerf_built s)))
      as (ls & Els & Hls & Hlen & Pls).
    exists (l :: ls). cbn [next_pid nerf_built] in Els, Pls.
    split; [|split; [|split]].
    + cbn [seq mapM]. unfold mbind, alloc_bind at 1.
      replace (if bool_decide (a ∈ skips)
               then nn_Linear init (W + ic) W else nn_Linear init W W)
        with (nn_Linear init (if bool_decide (a ∈ skips) then W + ic else W) W)
        by (destruct (bool_decide (a ∈ skips)); reflexivity).
      rewrite El. unfold alloc_bind at 1. rewrite Els.
      replace (2 * S n + next_pid s) with (2 * n + (2 + next_pid s)) by lia.
      reflexivity.
    + split; [exact Hl | exact Hls].
    + simpl. congruence.
    + cbn [map concat]. rewrite Pl, Pls.
      replace (2 * S n) with (2 + 2 * n) by lia.
      rewrite seq_app, (Nat.add_comm (next_pid s) 2). reflexivity.
Qed.

Lemma NeRF_heads_spec (W oc : nat) (uv : bool) (s : heap) :
  exists fl al rl ol,
    NeRF_heads init W oc uv s
      = ((fl, al, rl, ol),
         Heap (2 * (if uv then 3 else 1) + next_pid s) (nerf_built s)) ∧
    heads_ok W oc uv fl al rl ol ∧
    concat (map params_Linear
              (option_list fl ++ option_list al ++ option_list rl ++ option_list ol))
      = seq (next_pid s) (2 * (if uv then 3 else 1)).
Proof.
  destruct uv.
  - destruct (nn_Linear_spec W W s) as (f & Ef & Hf & Pf).
    destruct (nn_Linear_spec W 1 (Heap (2 + next_pid s) (nerf_built s)))
      as (a & Ea & Ha & Pa).
    destruct (nn_Linear_spec (W / 2) 3
                (Heap (2 + (2 + next_pid s)) (nerf_built s)))
      as (r & Er & Hr & Pr).
    cbn [next_pid nerf_built] in *.
    exists (Some f), (Some a), (Some r), None. split; [|split].
    + unfold NeRF_heads, mbind, alloc_bind. rewrite Ef, Ea, Er.
      unfold mret, alloc_ret.
      replace (2 * 3 + next_pid s) with (2 + (2 + (2 + next_pid s))) by lia.
      reflexivity.
    + exists f, a, r. do 4 (split; [reflexivity|]). split; [|split]; assumption.
    + unfold option_list. cbn [option_rect app map concat]. rewrite Pf, Pa, Pr, app_nil_r.
      replace (2 * 3) with (2 + (2 + 2)) by lia.
      rewrite !seq_app.
      replace (next_pid s + 2) with (2 + next_pid s) by lia.
      replace (2 + next_pid s + 2) with (2 + (2 + next_pid s)) by lia.
      reflexivity.
  - destruct (nn_Linear_spec W oc s) as (o & Eo & Ho & Po).
    exists None, None, None, (Some o). split; [|split].
    + unfold NeRF_heads, mbind, alloc_bind. rewrite Eo. reflexivity.
    + exists o. do 4 (split; [reflexivity|]). exact Ho.
    + unfold option_list. cbn [option_rect app map concat]. rewrite Po, app_nil_r. reflexivity.
Qed.

Lemma NeRF_init_spec (D W ic icv oc : nat) (skips : list nat) (uv : bool)
    (s : heap) :
  exists l0 ls v0 fl al rl ol,
    NeRF_init init D W ic icv oc skips uv s
      = (MkNeRF D W ic icv skips uv (l0 :: ls) [v0] fl al rl ol,
         Heap (2 * layer_count D uv + next_pid s) (S (nerf_built s))) ∧
    linear_ok ic W l0 ∧
    trunk_layers_ok skips ic W 0 ls ∧
    length ls = D - 1 ∧
    linear_ok (icv + W) (W / 2) v0 ∧
    heads_ok W oc uv fl al rl ol ∧
    parameters (MkNeRF D W ic icv skips uv (l0 :: ls) [v0] fl al rl ol)
      = seq (next_pid s) (2 * layer_count D uv).
Proof.
  destruct (nn_Linear_spec ic W s) as (l0 & E0 & H0 & P0).
  destruct (mapM_layers_spec skips ic W (D - 1) 0
              (Heap (2 + next_pid s) (nerf_built s)))
    as (ls & Els & Hls & Hlen & Pls).
  cbn [next_pid nerf_built] in Els, Pls.
  destruct (nn_Linear_spec (icv + W) (W / 2)
              (Heap (2 * (D - 1) + (2 + next_pid s)) (nerf_built s)))
    as (v0 & Ev & Hv & Pv).
  cbn [next_pid nerf_built] in Ev, Pv.
  destruct (NeRF_heads_spec W oc uv
              (Heap (2 + (2 * (D - 1) + (2 + next_pid s))) (nerf_built s)))
    as (fl & al & rl & ol & Eh & Hh & Ph).
  cbn [next_pid nerf_built] in Eh, Ph.
  exists l0, ls, v0, fl, al, rl, ol.
  split; [|split; [|split; [|split; [|split; [|split]]]]]; try assumption.
  - unfold NeRF_init, mbind, alloc_bind. rewrite E0, Els, Ev, Eh.
    unfold built. cbn [next_pid nerf_built].
    replace (2 * layer_count D uv + next_pid s)
      with (2 * (if uv then 3 else 1) + (2 + (2 * (D - 1) + (2 + next_pid s))))
      by (unfold layer_count; destruct uv; lia).
    reflexivity.
  - unfold parameters. cbn [pts_linears views_linears feature_linear
      alpha_linear rgb_linear output_linear].
    cbn [app map concat]. rewrite map_app, concat_app.
    cbn [map concat]. rewrite P0, Pls, Pv, Ph.
    unfold layer_count.
    replace (2 * (1 + (D - 1) + 1 + (if uv then 3 else 1)))
      with (2 + (2 * (D - 1) + (2 + 2 * (if uv then 3 else 1)))) by lia.
    rewrite !seq_app.
    replace (next_pid s + 2) with (2 + next_pid s) by lia.
    replace (2 + next_pid s + 2 * (D - 1))
      with (2 * (D - 1) + (2 + next_pid s)) by lia.
    replace (2 * (D - 1) + (2 + next_pid s) + 2)
      with (2 + (2 * (D - 1) + (2 + next_pid s))) by lia.
    reflexivity.
Qed.

End NetworkFacts.

(** ** The trunk *)

Section TrunkFacts.
Context {R : Type} `{Scalar R}.
Variable init : nat -> nat -> nat -> R.

Lemma nrows_Linear_forward (l : @Linear R) (h h' : tensor R) :
  Linear_forward l h = Ok h' -> nrows h' = nrows h.
Proof.
  unfold Linear_forward. destruct (ncols h =? in_features l); [|discriminate].
  intros [= <-]. unfold nrows. simpl. apply length_map.
Qed.

Lemma nrows_relu (h : tensor R) : nrows (F_relu h) = nrows h.
Proof. unfold nrows, F_relu. simpl. apply length_map. Qed.

Lemma nrows_cat_last (a b c : tensor R) :
  cat_last a b = Ok c -> nrows c = nrows a.
Proof.
  unfold cat_last. destruct (Nat.eqb_spec (nrows a) (nrows b)) as [E|]; [|discriminate].
  intros [= <-]. unfold nrows in *. simpl. rewrite length_zip_with. lia.
Qed.

(** The trunk never changes the batch size. *)
Lemma trunk_loop_nrows (skips : list nat) (pts : tensor R)
    (ls : list (@Linear R)) (i : nat) (h h' : tensor R) :
  trunk_loop skips pts i ls h = Ok h' -> nrows h = nrows pts ->
  nrows h' = nrows pts.
Proof.
  revert i h. induction ls as [|l ls IH]; intros i h; simpl.
  - intros [= <-]. trivial.
  - destruct (Linear_forward l h) as [h1|] eqn:E1; [|discriminate].
    unfold mbind, result_bind at 1. cbn beta iota.
    destruct (bool_decide (i ∈ skips)).
    + destruct (cat_last pts (F_relu h1)) as [h2|] eqn:E2; [|discriminate].
      cbn beta iota. intros Hl _. eapply IH; [exact Hl|].
      eapply nrows_cat_last, E2.
    + cbn beta iota. intros Hl Hn. eapply IH; [exact Hl|].
      rewrite nrows_relu. erewrite nrows_Linear_forward by exact E1. exact Hn.
Qed.

(** One iteration of the loop over [pts_linears]. *)
Lemma trunk_step {skips : list nat} {ic W win : nat} (k : nat) {pts h : tensor R}
    {l : @Linear R} :
  wf_tensor pts -> ncols pts = ic ->
  linear_ok win W l -> ncols h = win -> nrows h = nrows pts ->
  exists h',
    (Linear_forward l h ≫= fun h1 =>
       let h1 := F_relu h1 in
       if bool_decide (k ∈ skips) then cat_last pts h1 else Ok h1) = Ok h' ∧
    ncols h' = (if bool_decide (k ∈ skips) then W + ic else W) ∧
    nrows h' = nrows pts ∧ wf_tensor h'.
Proof.
  intros Hwp Hcp Hl Hc Hn.
  rewrite (Linear_forward_ok h Hl Hc), bind_Ok. cbn zeta.
  pose proof (wf_relu (wf_affine h Hl)) as Hwr.
  assert (nrows (F_relu (Tensor W (map (affine l) (rows h)))) = nrows pts) as Hnr.
  { rewrite nrows_relu. unfold nrows. simpl. rewrite length_map. exact Hn. }
  destruct (bool_decide (k ∈ skips)).
  - rewrite cat_last_ok by (symmetry; exact Hnr).
    eexists. split; [reflexivity|]. unfold F_relu in *. cbn [ncols rows] in *.
    split; [lia|]. split.
    + unfold nrows in *. cbn [rows] in *. rewrite length_zip_with.
      rewrite !length_map in *. lia.
    + unfold wf_tensor in *. cbn [ncols rows] in *. rewrite Hcp.
      apply wf_zip_app; [rewrite <- Hcp; exact Hwp | exact Hwr].
  - eexists. split; [reflexivity|]. split; [reflexivity|]. split; assumption.
Qed.

Lemma trunk_loop_spec {skips : list nat} {ic W : nat} {pts : tensor R} :
  wf_tensor pts -> ncols pts = ic ->
  forall (ls : list (@Linear R)) (i : nat) (h : tensor R),
    trunk_layers_ok skips ic W i ls ->
    ncols h = (if bool_decide (i ∈ skips) then W + ic else W) ->
    nrows h = nrows pts ->
    exists h',
      trunk_loop skips pts (S i) ls h = Ok h' ∧
      ncols h' = (if bool_decide (i + length ls ∈ skips) then W + ic else W) ∧
      nrows h' = nrows pts ∧
      (wf_tensor h -> wf_tensor h').
Proof.
  intros Hwp Hcp. induction ls as [|l ls IH]; intros i h Hls Hc Hn.
  - exists h. rewrite Nat.add_0_r. simpl. auto.
  - destruct Hls as [Hl Hls].
    destruct (trunk_step (skips:=skips) (S i) Hwp Hcp Hl Hc Hn)
      as (h1 & E1 & Hc1 & Hn1 & Hw1).
    destruct (IH (S i) h1 Hls Hc1 Hn1) as (h' & E' & Hc' & Hn' & Hw').
    exists h'. split; [|split; [|split]].
    + cbn [trunk_loop].
      change (trunk_loop skips pts (S (S i)) ls) with
        (fun h0 => trunk_loop skips pts (S (S i)) ls h0).
      revert E1. unfold mbind, result_bind.
      destruct (Linear_forward l h) as [h0|]; [|discriminate].
      cbn beta iota zeta. intros ->. exact E'.
    + rewrite Hc'. simpl. replace (i + S (length ls)) with (S (i + length ls)) by lia.
      reflexivity.
    + exact Hn'.
    + intros _. apply Hw', Hw1.
Qed.

(** The trunk of a constructed network accepts every well-formed batch
    of encoded points; its features have the width [W] unless the last
    layer is a skip layer. *)
Lemma trunk_spec (D W ic icv oc : nat) (sk : list nat) (uv : bool)
    (s : heap) (pts : tensor R) :
  wf_tensor pts -> ncols pts = ic ->
  exists h,
    trunk (NeRF_init init D W ic icv oc sk uv s).1 pts = Ok h ∧
    ncols h = (if bool_decide (D - 1 ∈ sk) then W + ic else W) ∧
    nrows h = nrows pts ∧ wf_tensor h.
Proof.
  intros Hwp Hcp.
  destruct (NeRF_init_spec init D W ic icv oc sk uv s)
    as (l0 & ls & v0 & fl & al & rl & ol & E & Hl0 & Hls & Hlen & _).
  rewrite E. unfold trunk. cbn [fst pts_linears skips trunk_loop].
  destruct (trunk_step (skips:=sk) 0 Hwp Hcp Hl0 Hcp eq_refl)
    as (h1 & E1 & Hc1 & Hn1 & Hw1).
  destruct (trunk_loop_spec Hwp Hcp ls 0 h1 Hls Hc1 Hn1)
    as (h' & E' & Hc' & Hn' & Hw').
  exists h'. split; [|split; [|split]].
  - revert E1. unfold mbind, result_bind.
    destruct (Linear_forward l0 pts) as [h0|]; [|discriminate].
    cbn beta iota zeta. intros ->. exact E'.
  - rewrite Hc', Hlen. reflexivity.
  - exact Hn'.
  - apply Hw', Hw1.
Qed.

End TrunkFacts.

(** ** [NeRF.forward] *)

Section ForwardFacts.
Context {R : Type} `{Scalar R}.
Variable init : nat -> nat -> nat -> R.

Lemma nrows_split_l (x : tensor R) (a : nat) :
  nrows (Tensor a (map (take a) (rows x))) = nrows x.
Proof. unfold nrows. simpl. apply length_map. Qed.

Lemma nrows_split_r (x : tensor R) (a b : nat) :
  nrows (Tensor b (map (fun r => take b (drop a r)) (rows x))) = nrows x.
Proof. unfold nrows. simpl. apply length_map. Qed.

(** The view-dependent branch of [forward], given the trunk features. *)
Lemma forward_view_branch (m : @NeRF R) (al fl v0 rl : @Linear R)
    (x pts views h : tensor R) (Wd icv : nat) :
  use_viewdirs m = true ->
  alpha_linear m = Some al -> feature_linear m = Some fl ->
  views_linears m = [v0] -> rgb_linear m = Some rl ->
  linear_ok Wd 1 al -> linear_ok Wd Wd fl ->
  linear_ok (icv + Wd) (Wd / 2) v0 -> linear_ok (Wd / 2) 3 rl ->
  torch_split x (input_ch m) (input_ch_views m) = Ok (pts, views) ->
  ncols views = icv -> nrows views = nrows pts ->
  trunk m pts = Ok h -> ncols h = Wd ->
  forward m x = Ok (view_dependent_head_spec al fl v0 rl h views).
Proof.
  intros Huv Eal Efl Ev0 Erl Hal Hfl Hv0 Hrl Esp Hcv Hnv Eh Hch.
  assert (nrows h = nrows pts) as Hnh.
  { unfold trunk in Eh. eapply trunk_loop_nrows; [exact Eh | reflexivity]. }
  unfold forward. rewrite Esp, bind_Ok. cbn beta iota.
  rewrite Eh, bind_Ok, Huv, Eal, Efl, Erl, Ev0. cbn [getattr].
  rewrite !bind_Ok.
  rewrite (Linear_forward_ok h Hal Hch), !bind_Ok.
  rewrite (Linear_forward_ok h Hfl Hch), !bind_Ok.
  rewrite cat_last_ok
    by (unfold nrows in *; cbn [rows]; rewrite length_map; congruence).
  rewrite !bind_Ok. cbn [views_loop ncols rows].
  rewrite (Linear_forward_ok _ Hv0) by (cbn [ncols]; lia).
  rewrite !bind_Ok.
  rewrite (Linear_forward_ok _ Hrl) by reflexivity.
  rewrite !bind_Ok. unfold F_relu. cbn [ncols rows].
  rewrite cat_last_ok.
  2:{ unfold nrows in *. cbn [rows]. rewrite !length_map, length_zip_with.
      rewrite length_map. lia. }
  cbn [ncols rows]. unfold view_dependent_head_spec.
  rewrite (map_map (affine v0)). reflexivity.
Qed.

(** The shape and well-formedness of the view-dependent head. *)
Lemma view_head_shape (al fl v0 rl : @Linear R) (h views : tensor R)
    (Wd icv : nat) :
  linear_ok Wd 1 al -> linear_ok (Wd / 2) 3 rl ->
  nrows views = nrows h ->
  shape (view_dependent_head_spec al fl v0 rl h views) = (nrows h, 4) ∧
  wf_tensor (view_dependent_head_spec al fl v0 rl h views).
Proof.
  intros Hal Hrl Hn. unfold view_dependent_head_spec, shape, nrows, wf_tensor in *.
  cbn [ncols rows]. split.
  - rewrite length_zip_with, !length_map, length_zip_with, length_map.
    f_equal. lia.
  - apply wf_zip_app.
    + apply Forall_forall. intros r Hr.
      apply list_elem_of_In, in_map_iff in Hr. destruct Hr as (r0 & <- & _).
      eapply affine_length, Hrl.
    + apply Forall_forall. intros r Hr.
      apply list_elem_of_In, in_map_iff in Hr. destruct Hr as (r0 & <- & _).
      eapply affine_length, Hal.
Qed.

(** C1, as the code has it: with view directions, [forward] on a batch
    with the configured channel count is the trunk followed by this
    head: density comes from
    one linear layer on the trunk features (no rectifier), a feature
    vector of the trunk width from a second linear layer; the feature
    is joined with the encoded view direction and goes through the
    half-width layer and a rectifier, then through the three-channel
    layer; the result is (RGB, density) in this order.  The layers of
    the head take features of the trunk width [W], which the trunk
    returns whenever its last layer is not a skip layer. *)
Theorem forward_viewdirs_head (Dp Wd ic icv oc : nat) (sk : list nat)
    (s : heap) (x : tensor R) :
  wf_tensor x -> ncols x = ic + icv ->
  exists pts views al fl v0 rl,
    let m := (NeRF_init init Dp Wd ic icv oc sk true s).1 in
    torch_split x ic icv = Ok (pts, views) ∧
    alpha_linear m = Some al ∧ feature_linear m = Some fl ∧
    views_linears m = [v0] ∧ rgb_linear m = Some rl ∧
    linear_ok Wd 1 al ∧ linear_ok Wd Wd fl ∧
    linear_ok (icv + Wd) (Wd / 2) v0 ∧ linear_ok (Wd / 2) 3 rl ∧
    forward m x
      = (h ← trunk m pts;
         if ncols h =? Wd
         then Ok (view_dependent_head_spec al fl v0 rl h views)
         else Raise (MatmulShapeError (ncols h) Wd)) ∧
    (Dp - 1 ∉ sk ->
       exists h, trunk m pts = Ok h ∧ ncols h = Wd ∧
         forward m x = Ok (view_dependent_head_spec al fl v0 rl h views)).
Proof.
  intros Hwx Hcx.
  pose proof (trunk_spec init Dp Wd ic icv oc sk true s
                (Tensor ic (map (take ic) (rows x)))
                (wf_take x ic Hwx ltac:(lia)) eq_refl) as Htr.
  destruct (NeRF_init_spec init Dp Wd ic icv oc sk true s)
    as (l0 & ls & v0 & fl & al & rl & ol & E & Hl0 & Hls & Hlen & Hv0 & Hh & _).
  destruct Hh as (f & a & r & -> & -> & -> & -> & Hf & Ha & Hr).
  rewrite E in Htr. rewrite E. cbn [fst] in *.
  set (m := MkNeRF Dp Wd ic icv sk true (l0 :: ls) [v0] (Some f) (Some a) (Some r) None) in *.
  exists (Tensor ic (map (take ic) (rows x))),
         (Tensor icv (map (fun r => take icv (drop ic r)) (rows x))),
         a, f, v0, r.
  cbn zeta.
  assert (forall h, trunk m (Tensor ic (map (take ic) (rows x))) = Ok h ->
            ncols h = Wd ->
            forward m x =
              Ok (view_dependent_head_spec a f v0 r h
                    (Tensor icv (map (fun r => take icv (drop ic r)) (rows x)))))
    as Hhead.
  { intros h Eh Hch.
    apply forward_view_branch with (Wd:=Wd) (icv:=icv)
      (pts:=Tensor ic (map (take ic) (rows x)))
      (views:=Tensor icv (map (fun r => take icv (drop ic r)) (rows x)));
      try reflexivity; try assumption.
    all: first [ apply torch_split_ok; exact Hcx
               | rewrite nrows_split_l, nrows_split_r; reflexivity ]. }
  destruct Htr as (h & Eh & Hch & _).
  repeat (split; [first [apply torch_split_ok; exact Hcx | reflexivity | assumption]|]).
  split.
  - rewrite Eh, bind_Ok. destruct (Nat.eqb_spec (ncols h) Wd) as [Hw|Hw].
    + apply Hhead; assumption.
    + unfold forward. cbn [input_ch input_ch_views use_viewdirs alpha_linear m].
      rewrite torch_split_ok by exact Hcx. rewrite bind_Ok. cbn beta iota.
      rewrite Eh, bind_Ok. cbn [getattr]. rewrite bind_Ok.
      rewrite (Linear_forward_raise h Ha) by exact Hw. reflexivity.
  - intros Hsk. rewrite bool_decide_eq_false_2 in Hch by exact Hsk.
    exists h. split; [exact Eh|]. split; [exact Hch|]. apply Hhead; assumption.
Qed.

(** C5, as the code has it: a constructed network whose last trunk
    layer is not a skip layer maps every well-formed batch with the
    configured channel count to a well-formed tensor of shape
    [[batch, output_ch]] without view directions and [[batch, 4]] with
    them; the skip indices only enter through that side condition. *)
Theorem forward_shape (Dp Wd ic icv oc : nat) (sk : list nat) (uv : bool)
    (s : heap) (x : tensor R) :
  wf_tensor x -> ncols x = ic + icv -> Dp - 1 ∉ sk ->
  exists out,
    forward (NeRF_init init Dp Wd ic icv oc sk uv s).1 x = Ok out ∧
    shape out = (nrows x, if uv then 4 else oc) ∧
    wf_tensor out.
Proof.
  intros Hwx Hcx Hsk. destruct uv.
  - pose proof (trunk_spec init Dp Wd ic icv oc sk true s
                  (Tensor ic (map (take ic) (rows x)))
                  (wf_take x ic Hwx ltac:(lia)) eq_refl) as Htr.
    destruct (NeRF_init_spec init Dp Wd ic icv oc sk true s)
      as (l0 & ls & v0 & fl & al & rl & ol & E & _ & _ & _ & Hv0 & Hh & _).
    destruct Hh as (f & a & r & -> & -> & -> & -> & Hf & Ha & Hr).
    rewrite E in Htr. rewrite E. cbn [fst] in *.
    destruct Htr as (h & Eh & Hch & Hnh & _).
    rewrite bool_decide_eq_false_2 in Hch by exact Hsk.
    rewrite nrows_split_l in Hnh.
    eexists. split.
    { apply forward_view_branch with (Wd:=Wd) (icv:=icv) (h:=h)
        (al:=a) (fl:=f) (v0:=v0) (rl:=r)
        (pts:=Tensor ic (map (take ic) (rows x)))
        (views:=Tensor icv (map (fun r => take icv (drop ic r)) (rows x)));
        try reflexivity; try assumption.
      all: first [ apply torch_split_ok; exact Hcx
                 | rewrite nrows_split_l, nrows_split_r; reflexivity
                 | exact Eh ]. }
    destruct (view_head_shape a f v0 r h
                (Tensor icv (map (fun r => take icv (drop ic r)) (rows x)))
                Wd icv Ha Hr) as [Hs Hw].
    { rewrite nrows_split_r. congruence. }
    split; [rewrite Hs, Hnh; reflexivity | exact Hw].
  - pose proof (trunk_spec init Dp Wd ic icv oc sk false s
                  (Tensor ic (map (take ic) (rows x)))
                  (wf_take x ic Hwx ltac:(lia)) eq_refl) as Htr.
    destruct (NeRF_init_spec init Dp Wd ic icv oc sk false s)
      as (l0 & ls & v0 & fl & al & rl & ol & E & _ & _ & _ & _ & Hh & _).
    destruct Hh as (o & -> & -> & -> & -> & Ho).
    rewrite E in Htr. rewrite E. cbn [fst] in *.
    destruct Htr as (h & Eh & Hch & Hnh & _).
    rewrite bool_decide_eq_false_2 in Hch by exact Hsk.
    unfold forward. cbn [input_ch input_ch_views use_viewdirs output_linear].
    rewrite torch_split_ok by exact Hcx. rewrite bind_Ok. cbn beta iota.
    rewrite Eh, bind_Ok. cbn [getattr]. rewrite bind_Ok.
    rewrite (Linear_forward_ok h Ho Hch).
    eexists. split; [reflexivity|]. split.
    + unfold shape, nrows in *. cbn [ncols rows] in *.
      rewrite length_map, Hnh, length_map. reflexivity.
    + eapply wf_affine, Ho.
Qed.

(** X1: when the last trunk layer is a skip layer, the trunk features
    have [W + input_ch] channels and the head rejects them: [forward]
    raises on every batch, in both modes. *)
Lemma forward_last_skip_raises (Dp Wd ic icv oc : nat) (sk : list nat)
    (uv : bool) (s : heap) (x : tensor R) :
  wf_tensor x -> ncols x = ic + icv -> Dp - 1 ∈ sk -> 0 < ic ->
  forward (NeRF_init init Dp Wd ic icv oc sk uv s).1 x
    = Raise (MatmulShapeError (Wd + ic) Wd).
Proof.
  intros Hwx Hcx Hsk Hic.
  pose proof (trunk_spec init Dp Wd ic icv oc sk uv s
                (Tensor ic (map (take ic) (rows x)))
                (wf_take x ic Hwx ltac:(lia)) eq_refl) as Htr.
  destruct (NeRF_init_spec init Dp Wd ic icv oc sk uv s)
    as (l0 & ls & v0 & fl & al & rl & ol & E & _ & _ & _ & _ & Hh & _).
  rewrite E in Htr. rewrite E. cbn [fst] in *.
  destruct Htr as (h & Eh & Hch & _).
  rewrite bool_decide_eq_true_2 in Hch by exact Hsk.
  unfold forward. cbn [input_ch input_ch_views use_viewdirs output_linear alpha_linear].
  rewrite torch_split_ok by exact Hcx. rewrite bind_Ok. cbn beta iota.
  rewrite Eh, bind_Ok.
  destruct uv.
  - destruct Hh as (f & a & r & -> & -> & -> & -> & _ & Ha & _).
    cbn [getattr]. rewrite bind_Ok.
    rewrite (Linear_forward_raise h Ha) by lia. rewrite Hch. reflexivity.
  - destruct Hh as (o & -> & -> & -> & -> & Ho).
    cbn [getattr]. rewrite bind_Ok.
    rewrite (Linear_forward_raise h Ho) by lia. rewrite Hch. reflexivity.
Qed.

(** None of the steps after the split raises the error of the split. *)
Lemma bind_not_split {A B} (c : result A) (f : A -> result B)
    (d : nat) (sz : list nat) :
  c ≠ Raise (SplitSizeError d sz) ->
  (forall a, f a ≠ Raise (SplitSizeError d sz)) ->
  (c ≫= f) ≠ Raise (SplitSizeError d sz).
Proof.
  intros Hc Hf. destruct c as [a|e]; [rewrite bind_Ok; apply Hf|].
  intros [= ->]. apply Hc. reflexivity.
Qed.

Lemma Linear_forward_not_split (l : @Linear R) (h : tensor R)
    (d : nat) (sz : list nat) :
  Linear_forward l h ≠ Raise (SplitSizeError d sz).
Proof.
  unfold Linear_forward. destruct (ncols h =? in_features l); discriminate.
Qed.

Lemma cat_last_not_split (a b : tensor R) (d : nat) (sz : list nat) :
  cat_last a b ≠ Raise (SplitSizeError d sz).
Proof. unfold cat_last. destruct (nrows a =? nrows b); discriminate. Qed.

Lemma getattr_not_split {A} (name : string) (o : option A)
    (d : nat) (sz : list nat) :
  getattr name o ≠ Raise (SplitSizeError d sz).
Proof. destruct o; discriminate. Qed.

Lemma trunk_loop_not_split (sk : list nat) (pts : tensor R)
    (ls : list (@Linear R)) (i : nat) (h : tensor R)
    (d : nat) (sz : list nat) :
  trunk_loop sk pts i ls h ≠ Raise (SplitSizeError d sz).
Proof.
  revert i h. induction ls as [|l ls IH]; intros i h; [discriminate|].
  cbn [trunk_loop]. apply bind_not_split; [apply Linear_forward_not_split|].
  intros h1. apply bind_not_split; [|intros h2; apply IH].
  cbn zeta. destruct (bool_decide (i ∈ sk));
    [apply cat_last_not_split | discriminate].
Qed.

Lemma views_loop_not_split (ls : list (@Linear R)) (h : tensor R)
    (d : nat) (sz : list nat) :
  views_loop ls h ≠ Raise (SplitSizeError d sz).
Proof.
  revert h. induction ls as [|l ls IH]; intros h; [discriminate|].
  cbn [views_loop]. apply bind_not_split; [apply Linear_forward_not_split|].
  intros h1. apply IH.
Qed.

(** C6: a batch whose channel count is not [input_ch + input_ch_views]
    makes [forward] raise the error of the split, whatever the network.
    With the right channel count the split succeeds, its two parts put
    side by side are the input again, so nothing is truncated, and
    [forward] goes on with exactly these two parts: it is the trunk on
    the point part followed by the head, and it never raises the error
    of the split. *)
Theorem forward_split_guard (m : @NeRF R) (x : tensor R) :
  (ncols x ≠ input_ch m + input_ch_views m ->
     forward m x
       = Raise (SplitSizeError (ncols x) [input_ch m; input_ch_views m])) ∧
  (ncols x = input_ch m + input_ch_views m -> wf_tensor x ->
     exists pts views,
       torch_split x (input_ch m) (input_ch_views m) = Ok (pts, views) ∧
       shape pts = (nrows x, input_ch m) ∧
       shape views = (nrows x, input_ch_views m) ∧
       zip_with app (rows pts) (rows views) = rows x ∧
       forward m x
         = (h ← trunk m pts;
            if use_viewdirs m then
              al ← getattr "alpha_linear" (alpha_linear m);
              alpha ← Linear_forward al h;
              fl ← getattr "feature_linear" (feature_linear m);
              feature ← Linear_forward fl h;
              h ← cat_last feature views;
              h ← views_loop (views_linears m) h;
              rl ← getattr "rgb_linear" (rgb_linear m);
              rgb ← Linear_forward rl h;
              cat_last rgb alpha
            else
              ol ← getattr "output_linear" (output_linear m);
              Linear_forward ol h) ∧
       (forall d sz, forward m x ≠ Raise (SplitSizeError d sz))).
Proof.
  split.
  - intros Hne. unfold forward. rewrite torch_split_raise by exact Hne.
    reflexivity.
  - intros Heq Hwx. eexists _, _. split; [apply torch_split_ok, Heq|].
    unfold shape. rewrite nrows_split_l, nrows_split_r. cbn [ncols rows].
    split; [reflexivity|]. split; [reflexivity|].
    split; [apply split_rejoin; unfold wf_tensor in Hwx; rewrite <- Heq;
            exact Hwx|].
    assert (forward m x
            = (h ← trunk m (Tensor (input_ch m)
                              (map (take (input_ch m)) (rows x)));
               if use_viewdirs m then
                 al ← getattr "alpha_linear" (alpha_linear m);
                 alpha ← Linear_forward al h;
                 fl ← getattr "feature_linear" (feature_linear m);
                 feature ← Linear_forward fl h;
                 h ← cat_last feature
                       (Tensor (input_ch_views m)
                          (map (fun r => take (input_ch_views m)
                                           (drop (input_ch m) r)) (rows x)));
                 h ← views_loop (views_linears m) h;
                 rl ← getattr "rgb_linear" (rgb_linear m);
                 rgb ← Linear_forward rl h;
                 cat_last rgb alpha
               else
                 ol ← getattr "output_linear" (output_linear m);
                 Linear_forward ol h)) as E
      by (unfold forward; rewrite torch_split_ok by exact Heq; reflexivity).
    split; [exact E|]. intros d sz. rewrite E.
    apply bind_not_split; [apply trunk_loop_not_split|]. intros h.
    destruct (use_viewdirs m).
    + apply bind_not_split; [apply getattr_not_split|]. intros al.
      apply bind_not_split; [apply Linear_forward_not_split|]. intros alpha.
      apply bind_not_split; [apply getattr_not_split|]. intros fl.
      apply bind_not_split; [apply Linear_forward_not_split|]. intros feature.
      apply bind_not_split; [apply cat_last_not_split|]. intros h1.
      apply bind_not_split; [apply views_loop_not_split|]. intros h2.
      apply bind_not_split; [apply getattr_not_split|]. intros rl.
      apply bind_not_split; [apply Linear_forward_not_split|]. intros rgb.
      apply cat_last_not_split.
    + apply bind_not_split; [apply getattr_not_split|]. intros ol.
      apply Linear_forward_not_split.
Qed.

(** C8: without view directions, two batches of one channel count that
    agree on their first [input_ch] channels get the same result from
    [forward]; the trailing view channels never reach the output. *)
Theorem forward_ignores_views (m : @NeRF R) (x x' : tensor R) :
  use_viewdirs m = false ->
  ncols x = ncols x' ->
  map (take (input_ch m)) (rows x) = map (take (input_ch m)) (rows x') ->
  forward m x = forward m x'.
Proof.
  intros Huv Hc Hr. unfold forward, torch_split.
  rewrite <- Hc, <- Hr, Huv.
  destruct (ncols x =? input_ch m + input_ch_views m); reflexivity.
Qed.

End ForwardFacts.

Lemma forward_depth5_raises :
  forward (NeRF_init sample_init 5 2 1 1 4 [4] false fresh_heap).1 sample_batch
    = Raise (MatmulShapeError 3 2).
Proof. reflexivity. Qed.

(** C1 as stated fails when the last trunk layer is a skip layer: the
    network that [create_model] builds for [netdepth = 5] with view
    directions raises on a well-formed batch with the configured
    channel count, and returns no (RGB, density). *)
Lemma forward_viewdirs_depth5_raises :
  netdepth sample_args_depth5 = 5 ∧
  use_viewdirs (model sample_lit_depth5) = true ∧
  wf_tensor sample_batch ∧
  ncols sample_batch
    = input_ch (model sample_lit_depth5)
      + input_ch_views (model sample_lit_depth5) ∧
  forward (model sample_lit_depth5) sample_batch
    = Raise (MatmulShapeError 3 2) ∧
  ~ (exists out, forward (model sample_lit_depth5) sample_batch = Ok out).
Proof.
  assert (forward (model sample_lit_depth5) sample_batch
          = Raise (MatmulShapeError 3 2)) as E by (vm_compute; reflexivity).
  split; [reflexivity|]. split; [reflexivity|].
  split; [repeat constructor|]. split; [reflexivity|]. split; [exact E|].
  intros [out Hout]. rewrite E in Hout. discriminate.
Qed.

Lemma forward_viewdirs_head_witness :
  wf_tensor sample_batch ∧ ncols sample_batch = 1 + 1 ∧
  exists al fl v0 rl h views,
    forward sample_view_net sample_batch
      = Ok (view_dependent_head_spec al fl v0 rl h views).
Proof.
  assert (wf_tensor sample_batch) as Hw by (repeat constructor).
  split; [exact Hw|]. split; [reflexivity|].
  destruct (forward_viewdirs_head sample_init 2 2 1 1 4 [4] fresh_heap
              sample_batch Hw eq_refl)
    as (pts & views & al & fl & v0 & rl & Hall).
  cbn zeta in Hall.
  destruct Hall as (_ & _ & _ & _ & _ & _ & _ & _ & _ & _ & Htot).
  destruct Htot as (h & _ & _ & Ef).
  { apply not_elem_of_cons. split; [lia | apply not_elem_of_nil]. }
  exists al, fl, v0, rl, h, views. exact Ef.
Defined.

Lemma forward_shape_witness :
  wf_tensor sample_batch ∧ ncols sample_batch = 1 + 1 ∧ (2 - 1 ∉ [4]) ∧
  exists out,
    forward sample_plain_net sample_batch = Ok out ∧ shape out = (2, 5).
Proof.
  assert (wf_tensor sample_batch) as Hw by (repeat constructor).
  assert (2 - 1 ∉ [4]) as Hsk
    by (apply not_elem_of_cons; split; [lia | apply not_elem_of_nil]).
  split; [exact Hw|]. split; [reflexivity|]. split; [exact Hsk|].
  destruct (forward_shape sample_init 2 2 1 1 5 [4] false fresh_heap
              sample_batch Hw eq_refl Hsk) as (out & Ef & Hs & _).
  exists out. split; [exact Ef | exact Hs].
Defined.

(** C5 as stated fails: with view directions and a fine network the
    configured [output_ch] is 5, yet the output has 4 channels. *)
Lemma forward_shape_not_output_ch :
  configured_output_ch sample_args = 5 ∧
  exists out,
    forward (model sample_lit) sample_batch = Ok out ∧
    shape out = (2, 4) ∧
    shape out ≠ (nrows sample_batch, configured_output_ch sample_args).
Proof.
  split; [reflexivity|]. eexists. split; [vm_compute; reflexivity|].
  split; [reflexivity | discriminate].
Qed.

Lemma forward_split_guard_witness :
  forward sample_plain_net sample_narrow_batch
    = Raise (SplitSizeError 1 [1; 1]) ∧
  exists pts views,
    torch_split sample_batch 1 1 = Ok (pts, views) ∧
    zip_with app (rows pts) (rows views) = rows sample_batch ∧
    forward sample_plain_net sample_batch
      = (h ← trunk sample_plain_net pts;
         ol ← getattr "output_linear" (output_linear sample_plain_net);
         Linear_forward ol h) ∧
    forward sample_plain_net sample_batch ≠ Raise (SplitSizeError 2 [1; 1]) ∧
    is_Ok (forward sample_plain_net sample_batch) = true.
Proof.
  split.
  - apply (proj1 (forward_split_guard sample_plain_net sample_narrow_batch)).
    vm_compute. discriminate.
  - destruct (proj2 (forward_split_guard sample_plain_net sample_batch)
                eq_refl ltac:(repeat constructor))
      as (pts & views & E & _ & _ & Hz & Hf & Hns).
    exists pts, views. split; [exact E|]. split; [exact Hz|].
    split; [exact Hf|]. split; [apply Hns | reflexivity].
Defined.

Lemma forward_ignores_views_witness :
  (sample_batch ≠ sample_batch') ∧
  (forward sample_plain_net sample_batch
     = forward sample_plain_net sample_batch') ∧
  is_Ok (forward sample_plain_net sample_batch) = true.
Proof.
  split; [discriminate|]. split; [|reflexivity].
  apply (forward_ignores_views sample_plain_net sample_batch sample_batch');
    reflexivity.
Defined.

(** ** [LitJaxNeRF.create_model] *)

Lemma dict_copy_id {V} (d : gmap string V) : dict_copy d = d.
Proof.
  apply map_eq. intros k. unfold dict_copy. rewrite map_lookup_imap.
  destruct (d !! k); reflexivity.
Qed.

Section CreateModelFacts.
Context {R : Type} `{Scalar R}.
Variable init : nat -> nat -> nat -> R.
Variable get_embedder : Z -> Z -> @embed_fn R * nat.

(** [create_model] as one equation: the two constructor calls in
    sequence on the heap, then the two dictionaries. *)
Lemma create_model_eq (a : @Args R) (i : @Info R) (s : heap) :
  let e := get_embedder (multires a) (i_embed a) in
  let ev := get_embedder (multires_views a) (i_embed a) in
  let ic := e.2 in
  let icv := if use_viewdirs_arg a then ev.2 else 0 in
  let oc := configured_output_ch a in
  let r1 := NeRF_init init (netdepth a) (netwidth a) ic icv oc [4]
              (use_viewdirs_arg a) s in
  let r2 := NeRF_init init (netdepth_fine a) (netwidth_fine a) ic icv oc [4]
              (use_viewdirs_arg a) r1.2 in
  let fine := if (0 <? num_fine_samples a)%Z then Some r2.1 else None in
  let q := QueryFn e.1 (if use_viewdirs_arg a then Some ev.1 else None)
             (netchunk a) in
  let train := make_render_kwargs_train a i q r1.1 fine in
  create_model init get_embedder a i s
    = (MkLit a i (info_h i * info_w i) r1.1 fine train
             (make_render_kwargs_test train) 0 None,
       if (0 <? num_fine_samples a)%Z then r2.2 else r1.2).
Proof.
  cbn zeta. unfold create_model.
  destruct (get_embedder (multires a) (i_embed a)) as [ef ic].
  destruct (get_embedder (multires_views a) (i_embed a)) as [evf icv].
  cbn [fst snd].
  destruct (use_viewdirs_arg a); unfold mbind, alloc_bind;
    (destruct (NeRF_init init (netdepth a) (netwidth a) _ _ _ _ _ s)
       as [m1 s1]; cbn [fst snd];
     destruct (0 <? num_fine_samples a)%Z;
     [ destruct (NeRF_init init (netdepth_fine a) (netwidth_fine a) _ _ _ _ _ s1)
         as [m2 s2]; reflexivity
     | reflexivity ]).
Qed.

(** C7: [create_model] builds the coarse network always and the fine
    network exactly when [num_fine_samples > 0] ([model_fine] is [None]
    otherwise); both come from the same constructor with the same
    [input_ch], [input_ch_views], [output_ch], skips and [use_viewdirs],
    the fine one with the fine depth and width; no parameter identity
    occurs twice among the two networks; and the call constructs one
    network per instance, once. *)
Theorem create_model_networks (a : @Args R) (i : @Info R) (s : heap) :
  let run := create_model init get_embedder a i s in
  let ic := (get_embedder (multires a) (i_embed a)).2 in
  let icv := if use_viewdirs_arg a
             then (get_embedder (multires_views a) (i_embed a)).2 else 0 in
  let oc := configured_output_ch a in
  let coarse := NeRF_init init (netdepth a) (netwidth a) ic icv oc [4]
                  (use_viewdirs_arg a) s in
  let fine := NeRF_init init (netdepth_fine a) (netwidth_fine a) ic icv oc [4]
                (use_viewdirs_arg a) coarse.2 in
  model run.1 = coarse.1 ∧
  model_fine run.1
    = (if (0 <? num_fine_samples a)%Z then Some fine.1 else None) ∧
  NoDup (parameters (model run.1)
           ++ from_option parameters [] (model_fine run.1)) ∧
  nerf_built run.2
    = nerf_built s + (if (0 <? num_fine_samples a)%Z then 2 else 1) ∧
  D fine.1 = netdepth_fine a ∧ W fine.1 = netwidth_fine a ∧
  input_ch fine.1 = input_ch coarse.1 ∧
  input_ch_views fine.1 = input_ch_views coarse.1 ∧
  skips fine.1 = skips coarse.1 ∧
  use_viewdirs fine.1 = use_viewdirs coarse.1 ∧
  (out_features <$> output_linear fine.1)
    = (out_features <$> output_linear coarse.1).
Proof.
  cbn zeta. rewrite create_model_eq. cbn zeta. cbn [fst snd model model_fine].
  set (ic := (get_embedder (multires a) (i_embed a)).2).
  set (icv := if use_viewdirs_arg a
              then (get_embedder (multires_views a) (i_embed a)).2 else 0).
  set (oc := configured_output_ch a).
  destruct (NeRF_init_spec init (netdepth a) (netwidth a) ic icv oc [4]
              (use_viewdirs_arg a) s)
    as (l0 & ls & v0 & fl & al & rl & ol & E1 & _ & _ & _ & _ & Hh1 & P1).
  rewrite E1 in *. cbn [fst snd] in *.
  destruct (NeRF_init_spec init (netdepth_fine a) (netwidth_fine a) ic icv oc
              [4] (use_viewdirs_arg a)
              (Heap (2 * layer_count (netdepth a) (use_viewdirs_arg a)
                     + next_pid s) (S (nerf_built s))))
    as (l0' & ls' & v0' & fl' & al' & rl' & ol' & E2 & _ & _ & _ & _ & Hh2 & P2).
  rewrite E2 in *. cbn [fst snd next_pid nerf_built] in *.
  split; [reflexivity|]. split; [reflexivity|]. split; [|split].
  - rewrite P1. destruct (0 <? num_fine_samples a)%Z; cbn [from_option].
    + rewrite P2, (Nat.add_comm _ (next_pid s)), <- seq_app. apply NoDup_seq.
    + rewrite app_nil_r. apply NoDup_seq.
  - destruct (0 <? num_fine_samples a)%Z; cbn [nerf_built]; lia.
  - cbn [D W input_ch input_ch_views skips use_viewdirs output_linear].
    repeat (split; [reflexivity|]).
    unfold heads_ok in Hh1, Hh2. destruct (use_viewdirs_arg a).
    + destruct Hh1 as (? & ? & ? & _ & _ & _ & -> & _).
      destruct Hh2 as (? & ? & ? & _ & _ & _ & -> & _). reflexivity.
    + destruct Hh1 as (o1 & _ & _ & _ & -> & (_ & Ho1 & _)).
      destruct Hh2 as (o2 & _ & _ & _ & -> & (_ & Ho2 & _)).
      cbn. congruence.
Qed.

(** C3: the evaluation settings are the training settings with
    ["perturb"] set to [False] and ["raw_noise_std"] set to [0.]; every
    other key has the same value in both, the two dictionaries have the
    same keys, and the training settings keep the configured values. *)
Theorem render_kwargs_test_frame (a : @Args R) (i : @Info R) (s : heap) :
  let lit := (create_model init get_embedder a i s).1 in
  (forall k : string, k ≠ "perturb" -> k ≠ "raw_noise_std" ->
     render_kwargs_test lit !! k = render_kwargs_train lit !! k) ∧
  render_kwargs_test lit !! "perturb" = Some (VBool false) ∧
  render_kwargs_test lit !! "raw_noise_std" = Some (VFloat py_zero) ∧
  render_kwargs_train lit !! "perturb" = Some (perturb a) ∧
  render_kwargs_train lit !! "raw_noise_std" = Some (raw_noise_std a) ∧
  dom (render_kwargs_test lit) = dom (render_kwargs_train lit).
Proof.
  cbn zeta. rewrite create_model_eq. cbn zeta.
  cbn [fst render_kwargs_test render_kwargs_train].
  set (q := QueryFn _ _ _). set (m := (NeRF_init _ _ _ _ _ _ _ _ _).1).
  set (mf := if (0 <? num_fine_samples a)%Z then _ else _).
  assert (make_render_kwargs_train a i q m mf !! "perturb" = Some (perturb a)
          ∧ make_render_kwargs_train a i q m mf !! "raw_noise_std"
            = Some (raw_noise_std a)) as [Hp Hr].
  { unfold make_render_kwargs_train.
    destruct (bool_decide (dataset_type a ≠ "llff") || no_ndc a);
      split; by simplify_map_eq. }
  unfold make_render_kwargs_test. rewrite dict_copy_id.
  split; [|split; [|split; [|split; [|split]]]].
  - intros k Hk1 Hk2. rewrite !lookup_insert_ne by congruence. reflexivity.
  - rewrite lookup_insert_ne by discriminate. apply lookup_insert_eq.
  - apply lookup_insert_eq.
  - exact Hp.
  - exact Hr.
  - rewrite !dom_insert_L.
    assert ("perturb" ∈ dom (make_render_kwargs_train a i q m mf)) as Hin1
      by (apply elem_of_dom; eauto).
    assert ("raw_noise_std" ∈ dom (make_render_kwargs_train a i q m mf)) as Hin2
      by (apply elem_of_dom; eauto).
    rewrite (subseteq_union_1_L {["perturb"]})
      by (apply singleton_subseteq_l; exact Hin1).
    apply subseteq_union_1_L, singleton_subseteq_l, Hin2.
Qed.

End CreateModelFacts.

Lemma render_kwargs_test_frame_witness :
  render_kwargs_test sample_lit !! "near" = render_kwargs_train sample_lit !! "near" ∧
  render_kwargs_train sample_lit !! "near" = Some (VInt 2) ∧
  render_kwargs_train sample_lit !! "perturb"
    = Some (VFloat (S754_finite false 4503599627370496 (-52))) ∧
  render_kwargs_test sample_lit !! "perturb" = Some (VBool false).
Proof.
  destruct (render_kwargs_test_frame sample_init sample_embedder sample_args
              sample_info fresh_heap) as (Hframe & Hp & _ & Hp' & _).
  split; [apply Hframe; discriminate|].
  split; [vm_compute; reflexivity|]. split; [exact Hp' | exact Hp].
Defined.

(** ** [LitJaxNeRF.training_step] *)

Section TrainingFacts.
Context {R : Type} `{Scalar R}.
Variable utils_render :
  nat -> nat -> @value R -> Z -> tensor R -> @value R ->
  gmap string (@value R) -> result (@render_out R).
Variable img2mse : tensor R -> tensor R -> R.
Variable mse2psnr : R -> R.

(** C4: when the extras of the render hold the coarse colours under
    ["rgb0"], the loss that [training_step] returns is the error of the
    fine colours against the target plus the error of [extras["rgb0"]]
    against the same target; both PSNR values and the loss are logged. *)
Theorem training_step_loss (self : @LitJaxNeRF R)
    (batch : gmap string (tensor R)) (batch_idx : nat)
    (rays target rgb0 : tensor R) (out : @render_out R) (lg : @logs R) :
  batch !! "ray" = Some rays ->
  batch !! "target" = Some target ->
  Lit_forward utils_render self rays = Ok out ->
  r_extras out !! "rgb0" = Some rgb0 ->
  let loss1 := img2mse (r_rgb out) target in
  let loss0 := img2mse rgb0 target in
  training_step utils_render img2mse mse2psnr self batch batch_idx lg
    = (Ok (add loss1 loss0),
       lg ++ [("train/psnr1", mse2psnr loss1); ("train/psnr0", mse2psnr loss0);
              ("train/loss", add loss1 loss0)]).
Proof.
  intros Hray Htarget Hout Hrgb0. cbn zeta.
  unfold training_step, mbind, py_bind, lift, dict_get.
  rewrite Hray, Htarget, Hout, Hrgb0. cbn [read_local].
  unfold self_log, mret, py_ret. rewrite <- !app_assoc. reflexivity.
Qed.

(** C10: when the extras of the render do not hold ["rgb0"],
    [training_step] returns no loss: after logging ["train/psnr1"] it
    reads the local [psnr0], which only the branch guarded by
    ["rgb0" in extras] assigns, and raises. *)
Theorem training_step_unbound_psnr0 (self : @LitJaxNeRF R)
    (batch : gmap string (tensor R)) (batch_idx : nat)
    (rays target : tensor R) (out : @render_out R) (lg : @logs R) :
  batch !! "ray" = Some rays ->
  batch !! "target" = Some target ->
  Lit_forward utils_render self rays = Ok out ->
  r_extras out !! "rgb0" = None ->
  training_step utils_render img2mse mse2psnr self batch batch_idx lg
    = (Raise (UnboundLocalError "psnr0"),
       lg ++ [("train/psnr1", mse2psnr (img2mse (r_rgb out) target))]).
Proof.
  intros Hray Htarget Hout Hrgb0.
  unfold training_step, mbind, py_bind, lift, dict_get.
  rewrite Hray, Htarget, Hout, Hrgb0. reflexivity.
Qed.

(** Conversely, a step that returns a loss had ["rgb0"] in its extras. *)
Lemma training_step_Ok_inv (self : @LitJaxNeRF R)
    (batch : gmap string (tensor R)) (batch_idx : nat) (lg lg' : @logs R)
    (loss : R) :
  training_step utils_render img2mse mse2psnr self batch batch_idx lg
    = (Ok loss, lg') ->
  exists rays out,
    batch !! "ray" = Some rays ∧
    Lit_forward utils_render self rays = Ok out ∧
    is_Some (r_extras out !! "rgb0").
Proof.
  unfold training_step, mbind, py_bind, lift, dict_get.
  destruct (batch !! "ray") as [rays|]; [|discriminate].
  destruct (batch !! "target") as [target|]; [|discriminate].
  destruct (Lit_forward utils_render self rays) as [out|] eqn:Hout;
    [|discriminate].
  destruct (r_extras out !! "rgb0") as [rgb0|] eqn:Hrgb0; [|discriminate].
  intros _. exists rays, out. rewrite Hrgb0. eauto.
Qed.

End TrainingFacts.

Lemma training_step_loss_witness :
  training_step sample_render sample_img2mse sample_mse2psnr
      (on_train_start sample_lit) sample_train_batch 0 []
    = (Ok 100%Z,
       [("train/psnr1", (-50)%Z); ("train/psnr0", (-50)%Z);
        ("train/loss", 100%Z)]).
Proof.
  etransitivity.
  - apply (training_step_loss sample_render sample_img2mse sample_mse2psnr
             (on_train_start sample_lit) sample_train_batch 0
             sample_batch sample_batch' sample_batch
             (RenderOut sample_batch [] [] [] {["rgb0" := sample_batch]}) []);
      reflexivity.
  - reflexivity.
Defined.

Lemma training_step_unbound_psnr0_witness :
  training_step sample_render sample_img2mse sample_mse2psnr
      (on_train_start sample_lit_coarse) sample_train_batch 0 []
    = (Raise (UnboundLocalError "psnr0"), [("train/psnr1", (-50)%Z)]).
Proof.
  etransitivity.
  - apply (training_step_unbound_psnr0 sample_render sample_img2mse
             sample_mse2psnr (on_train_start sample_lit_coarse)
             sample_train_batch 0 sample_batch sample_batch'
             (RenderOut sample_batch [] [] [] ∅) []);
      reflexivity.
  - reflexivity.
Defined.

(** ** [LitJaxNeRF.gather_results] *)

Lemma slice_to_neg {A} (d : Z) (l : list A) :
  (0 < d)%Z -> slice_to (- d) l = take (length l - Z.to_nat d) l.
Proof.
  intros Hd. unfold slice_to.
  destruct (Z.ltb_spec (- d) 0) as [_|]; [|lia].
  f_equal. lia.
Qed.

Lemma drops_last_take {A} (d : nat) (l : list A) :
  d <= length l -> drops_last d l (take (length l - d) l).
Proof.
  intros Hd. exists (drop (length l - d) l). split.
  - rewrite length_drop. lia.
  - symmetry. apply take_drop.
Qed.

Lemma drops_last_length {A} (d : nat) (full kept : list A) :
  drops_last d full kept -> length full = length kept + d.
Proof. intros (removed & <- & ->). apply length_app. Qed.

Section GatherFacts.
Context {A : Type}.
Variable all_gather : list (@step_output A) -> list (@gathered_output A).

Lemma cat_rows_stacked {c : nat} {ts : list (tensor A)} :
  stacked c ts -> cat_rows ts = Ok (Tensor c (concat (map rows ts))).
Proof.
  intros [Hne Hc]. destruct ts as [|t ts]; [contradiction|].
  unfold cat_rows. inversion Hc as [|? ? Ht Hts]; subst.
  replace (forallb (fun u => ncols u =? ncols t) ts) with true; [reflexivity|].
  symmetry. apply forallb_forall. intros u Hu.
  rewrite Forall_forall in Hts. apply Nat.eqb_eq, Hts, list_elem_of_In, Hu.
Qed.

Lemma mapR_cat_rows {c : nat} {field : @gathered_output A -> list (tensor A)}
    {gs : list (@gathered_output A)} :
  Forall (fun g => stacked c (field g)) gs ->
  mapR (fun out => cat_rows (field out)) gs
    = Ok (map (fun g => Tensor c (concat (map rows (field g)))) gs).
Proof.
  induction 1 as [|g gs Hg _ IH]; [reflexivity|].
  cbn [mapR map]. rewrite (cat_rows_stacked Hg), bind_Ok, IH. reflexivity.
Qed.

Lemma gather_field {c : nat} {field : @gathered_output A -> list (tensor A)}
    {gs : list (@gathered_output A)} :
  gs ≠ [] -> Forall (fun g => stacked c (field g)) gs ->
  (mapR (fun out => cat_rows (field out)) gs ≫= cat_rows)
    = Ok (Tensor c (gathered_rows field gs)).
Proof.
  intros Hne Hst. rewrite (mapR_cat_rows Hst), bind_Ok.
  rewrite (cat_rows_stacked (c:=c)).
  - unfold gathered_rows. rewrite map_map. reflexivity.
  - split; [destruct gs; [contradiction | discriminate]|].
    apply Forall_forall. intros t Ht.
    apply list_elem_of_In, in_map_iff in Ht. destruct Ht as (g & <- & _).
    reflexivity.
Qed.

Lemma gather_depths {gs : list (@gathered_output A)} :
  gs ≠ [] -> Forall (fun g => g_depth g ≠ []) gs ->
  (mapR (fun out => cat_vec (g_depth out)) gs ≫= cat_vec)
    = Ok (gathered_depths gs).
Proof.
  intros Hne Hst.
  assert (mapR (fun out => cat_vec (g_depth out)) gs
          = Ok (map (fun g => concat (g_depth g)) gs)) as ->.
  { clear Hne. induction Hst as [|g gs Hg _ IH]; [reflexivity|].
    cbn [mapR map].
    destruct (g_depth g) as [|v vs] eqn:Eg; [contradiction|].
    change (cat_vec (v :: vs)) with (Ok (concat (v :: vs))).
    rewrite bind_Ok, IH. reflexivity. }
  rewrite bind_Ok. destruct gs; [contradiction | reflexivity].
Qed.

(** C2, as the code has it: on a non-empty list of gathered steps,
    [gather_results] returns the three gathered concatenations cut to
    their first [n - dummy_num] rows, in gathering order; these are the
    concatenations with exactly their last [dummy_num] rows removed
    whenever [dummy_num] does not exceed the row count, and all rows
    when [dummy_num = 0]. *)
Theorem gather_results_trims (c : nat) (outputs : list (@step_output A))
    (dummy_num : Z) :
  all_gather outputs ≠ [] ->
  Forall (gathered_ok c) (all_gather outputs) ->
  (0 <= dummy_num)%Z ->
  let d := Z.to_nat dummy_num in
  let full_rgb := gathered_rows g_rgb (all_gather outputs) in
  let full_target := gathered_rows g_target (all_gather outputs) in
  let full_depth := gathered_depths (all_gather outputs) in
  exists rgbs target depths,
    gather_results all_gather outputs dummy_num = Ok (rgbs, target, depths) ∧
    ncols rgbs = c ∧ ncols target = c ∧
    rows rgbs = take (length full_rgb - d) full_rgb ∧
    rows target = take (length full_target - d) full_target ∧
    depths = take (length full_depth - d) full_depth ∧
    (d <= length full_rgb -> drops_last d full_rgb (rows rgbs)) ∧
    (d <= length full_target -> drops_last d full_target (rows target)) ∧
    (d <= length full_depth -> drops_last d full_depth depths) ∧
    (dummy_num = 0%Z ->
       rows rgbs = full_rgb ∧ rows target = full_target ∧ depths = full_depth).
Proof.
  intros Hne Hok Hd. cbn zeta.
  assert (Forall (fun g => stacked c (g_rgb g)) (all_gather outputs)) as Hr
    by (eapply Forall_impl; [exact Hok | intros g (? & ? & ?); assumption]).
  assert (Forall (fun g => stacked c (g_target g)) (all_gather outputs)) as Ht
    by (eapply Forall_impl; [exact Hok | intros g (? & ? & ?); assumption]).
  assert (Forall (fun g => g_depth g ≠ []) (all_gather outputs)) as Hdp
    by (eapply Forall_impl; [exact Hok | intros g (? & ? & ?); assumption]).
  pose proof (gather_field Hne Hr) as Er.
  pose proof (gather_field Hne Ht) as Et.
  pose proof (gather_depths Hne Hdp) as Ed.
  assert (forall X (l : list X), take (length l - 0) l = l) as Htake0
    by (intros X l; rewrite Nat.sub_0_r; apply firstn_all).
  assert (gather_results all_gather outputs dummy_num
          = Ok (Tensor c (take (length (gathered_rows g_rgb (all_gather outputs))
                                - Z.to_nat dummy_num)
                            (gathered_rows g_rgb (all_gather outputs))),
                Tensor c (take (length (gathered_rows g_target (all_gather outputs))
                                - Z.to_nat dummy_num)
                            (gathered_rows g_target (all_gather outputs))),
                take (length (gathered_depths (all_gather outputs))
                      - Z.to_nat dummy_num)
                  (gathered_depths (all_gather outputs)))) as E.
  { unfold gather_results. cbn zeta.
    revert Er Et Ed. unfold mbind, result_bind.
    destruct (mapR (fun out => cat_rows (g_rgb out)) (all_gather outputs))
      as [ts|]; [|discriminate]. intros ->.
    destruct (mapR (fun out => cat_rows (g_target out)) (all_gather outputs))
      as [ts'|]; [|discriminate]. intros ->.
    destruct (mapR (fun out => cat_vec (g_depth out)) (all_gather outputs))
      as [vs|]; [|discriminate]. intros ->.
    case_bool_decide as Hz.
    - unfold tensor_slice_to. cbn [ncols rows].
      rewrite !slice_to_neg by lia. reflexivity.
    - assert (dummy_num = 0%Z) as -> by lia.
      change (Z.to_nat 0) with 0. rewrite !Htake0. reflexivity. }
  eexists _, _, _. split; [exact E|]. cbn [ncols rows].
  do 5 (split; [reflexivity|]).
  split; [apply drops_last_take|]. split; [apply drops_last_take|].
  split; [apply drops_last_take|].
  intros ->. change (Z.to_nat 0) with 0. rewrite !Htake0. auto.
Qed.

End GatherFacts.

(** With nothing gathered there is nothing to concatenate. *)
Lemma gather_results_empty {A} (all_gather : list (@step_output A) ->
                                              list (@gathered_output A))
    (outputs : list (@step_output A)) (dummy_num : Z) :
  all_gather outputs = [] ->
  gather_results all_gather outputs dummy_num = Raise CatEmptyError.
Proof. intros E. unfold gather_results. rewrite E. reflexivity. Qed.

Lemma gather_results_trims_witness :
  exists rgbs target depths,
    gather_results sample_all_gather [sample_step] 1 = Ok (rgbs, target, depths) ∧
    rows rgbs = [[1; 2; 3]; [4; 5; 6]; [1; 2; 3]]%Z ∧
    drops_last 1 (gathered_rows g_rgb (sample_all_gather [sample_step])) (rows rgbs).
Proof.
  destruct (gather_results_trims sample_all_gather 3 [sample_step] 1)
    as (rgbs & target & depths & E & _ & _ & Hr & _ & _ & Hl & _).
  - discriminate.
  - repeat constructor; discriminate.
  - lia.
  - exists rgbs, target, depths. split; [exact E|]. split.
    + rewrite Hr. reflexivity.
    + apply Hl. vm_compute. lia.
Defined.

(** C2 as stated fails on a dummy count larger than the number of
    gathered rows: the slice is empty, so fewer than [dummy_num] rows
    were removed; and on an empty list of steps, where [torch.cat] has
    nothing to concatenate and raises. *)
Lemma gather_results_overlong_dummy :
  (exists rgbs target depths,
     gather_results sample_all_gather [sample_short_step] 3
       = Ok (rgbs, target, depths) ∧
     rows rgbs = [] ∧
     length (gathered_rows g_rgb (sample_all_gather [sample_short_step])) = 2 ∧
     ~ drops_last 3 (gathered_rows g_rgb (sample_all_gather [sample_short_step]))
         (rows rgbs)) ∧
  gather_results (A:=Z) sample_all_gather [] 0 = Raise CatEmptyError.
Proof.
  split; [|reflexivity].
  eexists _, _, _. split; [reflexivity|]. split; [reflexivity|].
  split; [reflexivity|].
  intros Hd. apply drops_last_length in Hd. vm_compute in Hd. lia.
Qed.

(** ** [LitJaxNeRF.validation_epoch_end] *)

Lemma psnr_of_zero_mse (tlog : spec_float -> spec_float) (s : bool) :
  tlog (S754_zero s) = S754_infinity true ->
  psnr_of_mse tlog (S754_zero s) = S754_infinity false.
Proof. intros Hlog. unfold psnr_of_mse. rewrite Hlog. reflexivity. Qed.

Section ValidationFacts.
Context {R : Type}.
Variable tlog : spec_float -> spec_float.
Variable all_gather :
  list (@step_output spec_float) -> list (@gathered_output spec_float).

(** C9: the per-image PSNR is [-10 * log(mse) / log(10)] applied to the
    per-image mean-squared error as it is, with no clamp and no epsilon
    in between; so, the logarithm of zero being minus infinity, an
    image with zero error gets the PSNR plus infinity, which is not
    finite. *)
Theorem validation_psnr_unclamped (self : @LitJaxNeRF R)
    (outputs : list (@step_output spec_float)) (mse : list spec_float) :
  validation_mse all_gather self outputs = Ok mse ->
  validation_psnr tlog all_gather self outputs
    = Ok (map (fun m => f32_div (f32_mul neg_ten (tlog m)) np_log_10) mse) ∧
  ((forall s, tlog (S754_zero s) = S754_infinity true) ->
   forall (i : nat) (s : bool), mse !! i = Some (S754_zero s) ->
   exists psnr,
     validation_psnr tlog all_gather self outputs = Ok psnr ∧
     psnr !! i = Some (S754_infinity false) ∧
     is_finite (S754_infinity false) = false).
Proof.
  intros Hmse.
  assert (validation_psnr tlog all_gather self outputs
          = Ok (map (psnr_of_mse tlog) mse)) as E
    by (unfold validation_psnr; rewrite Hmse; reflexivity).
  split; [exact E|].
  intros Hlog i s Hi. exists (map (psnr_of_mse tlog) mse).
  split; [exact E|]. split; [|reflexivity].
  change (map (psnr_of_mse tlog) mse) with (psnr_of_mse tlog <$> mse).
  rewrite list_lookup_fmap, Hi. cbn. f_equal. apply psnr_of_zero_mse, Hlog.
Qed.

End ValidationFacts.

Lemma validation_psnr_unclamped_witness :
  validation_mse sample_all_gather sample_lit [sample_val_step]
    = Ok [S754_zero false; S754_finite false 11184811 (-27)] ∧
  exists psnr,
    validation_psnr sample_log sample_all_gather sample_lit [sample_val_step]
      = Ok psnr ∧
    psnr !! 0 = Some (S754_infinity false).
Proof.
  assert (validation_mse sample_all_gather sample_lit [sample_val_step]
          = Ok [S754_zero false; S754_finite false 11184811 (-27)]) as Hmse
    by (vm_compute; reflexivity).
  split; [exact Hmse|].
  destruct (validation_psnr_unclamped sample_log sample_all_gather sample_lit
              [sample_val_step] _ Hmse) as [_ Hinf].
  destruct (Hinf (fun s => eq_refl) 0 false eq_refl) as (psnr & E & Hp & _).
  exists psnr. split; [exact E | exact Hp].
Defined.

(** On the sample the mean over the images, which is what gets logged,
    is not finite either. *)
Lemma validation_epoch_end_sample :
  validation_epoch_end sample_log sample_all_gather sample_lit
      [sample_val_step] []
    = (Ok tt, [("validation/psnr", S754_infinity false)]).
Proof. vm_compute. reflexivity. Qed.

(** ** More on [NeRF.forward]: batches, density, skip indices *)

Ltac bind_inv H x E :=
  match type of H with
  | (?c ≫= _) = Ok _ =>
      destruct c as [x|] eqn:E;
      [ rewrite bind_Ok in H; cbn beta iota zeta in H
      | unfold mbind, result_bind in H; discriminate H ]
  end.



Lemma drop_zip_app {A} (n : nat) (l1 l2 : list (list A)) :
  Forall (fun r => length r = n) l1 -> length l1 = length l2 ->
  map (drop n) (zip_with app l1 l2) = l2.
Proof.
  intros Hl. revert l2. induction Hl as [|r l1 Hr _ IH]; intros [|r2 l2] Hlen;
    try discriminate; [reflexivity|].
  cbn [zip_with map]. rewrite IH by (simpl in Hlen; lia).
  f_equal. rewrite drop_app_length'; [reflexivity | symmetry; exact Hr].
Qed.

Section BatchFacts.
Context {R : Type} `{Scalar R}.









Lemma views_loop_nrows {ls : list (@Linear R)} {h h' : tensor R} :
  views_loop ls h = Ok h' -> nrows h' = nrows h.
Proof.
  revert h. induction ls as [|l ls IH]; intros h Hl.
  - cbn in Hl. injection Hl as <-. reflexivity.
  - cbn [views_loop] in Hl. bind_inv Hl h1 E1.
    rewrite (IH _ Hl), nrows_relu. eapply nrows_Linear_forward, E1.
Qed.

Lemma nrows_torch_split {x p v : tensor R} {i j : nat} :
  torch_split x i j = Ok (p, v) -> nrows p = nrows x ∧ nrows v = nrows x.
Proof.
  unfold torch_split. destruct (ncols x =? i + j); [|discriminate].
  intros [= <- <-]. unfold nrows. cbn [rows]. rewrite !length_map. auto.
Qed.

(** X3: whatever the layers of the network are, a result of [forward]
    has one row per row of its input. *)
Theorem forward_preserves_batch (m : @NeRF R) (x o : tensor R) :
  forward m x = Ok o -> nrows o = nrows x.
Proof.
  intros Hf. unfold forward in Hf.
  bind_inv Hf pv S1. destruct pv as [p v].
  destruct (nrows_torch_split S1) as [Hp Hv].
  bind_inv Hf h T1. unfold trunk in T1.
  pose proof (trunk_loop_nrows _ _ _ _ _ _ T1 eq_refl) as Hh.
  destruct (use_viewdirs m).
  - bind_inv Hf al Eal. bind_inv Hf a A1. bind_inv Hf fl Efl.
    bind_inv Hf f F1. bind_inv Hf c C1. bind_inv Hf w W1.
    bind_inv Hf rl Erl. bind_inv Hf r R1.
    rewrite (nrows_cat_last _ _ _ Hf), (nrows_Linear_forward _ _ _ R1),
      (views_loop_nrows W1), (nrows_cat_last _ _ _ C1),
      (nrows_Linear_forward _ _ _ F1).
    congruence.
  - bind_inv Hf ol Eol. rewrite (nrows_Linear_forward _ _ _ Hf). congruence.
Qed.

End BatchFacts.

Lemma mapM_ext {A B} (f g : A -> alloc B) (l : list A) :
  (forall a, a ∈ l -> f a = g a) -> mapM f l = mapM g l.
Proof.
  induction l as [|a l IH]; intros Hfg; [reflexivity|].
  cbn [mapM]. rewrite (Hfg a) by apply list_elem_of_here.
  rewrite IH; [reflexivity|].
  intros b Hb. apply Hfg, list_elem_of_further, Hb.
Qed.

Lemma mapM_length {A B} (f : A -> alloc B) (l : list A) (s s' : heap)
    (bs : list B) :
  mapM f l s = (bs, s') -> length bs = length l.
Proof.
  revert s s' bs. induction l as [|a l IH]; intros s s' bs.
  - intros [= <- _]. reflexivity.
  - cbn [mapM]. unfold mbind, alloc_bind.
    destruct (f a s) as [b s1]. destruct (mapM f l s1) as [bs' s2] eqn:E.
    intros [= <- _]. cbn [length]. f_equal. eapply IH, E.
Qed.

Section DensityFacts.
Context {R : Type} `{Scalar R}.
Variable init : nat -> nat -> nat -> R.

Lemma rows_Linear_forward (l : @Linear R) (h o : tensor R) :
  Linear_forward l h = Ok o -> rows o = map (affine l) (rows h).
Proof.
  unfold Linear_forward. destruct (ncols h =? in_features l); [|discriminate].
  intros [= <-]. reflexivity.
Qed.

Lemma rows_cat_last (a b o : tensor R) :
  cat_last a b = Ok o ->
  rows o = zip_with app (rows a) (rows b) ∧ nrows a = nrows b.
Proof.
  unfold cat_last. destruct (Nat.eqb_spec (nrows a) (nrows b)); [|discriminate].
  intros [= <-]. auto.
Qed.

Lemma Forall_affine_length (i o : nat) (l : @Linear R) (rs : list (list R)) :
  linear_ok i o l -> Forall (fun r => length r = o) (map (affine l) rs).
Proof.
  intros Hl. apply Forall_forall. intros r Hr.
  apply list_elem_of_In, in_map_iff in Hr. destruct Hr as (r0 & <- & _).
  eapply affine_length, Hl.
Qed.

(** X4: the density does not depend on the view direction.  With view
    directions, two batches that agree on their first [input_ch]
    channels get the same fourth output channel from a constructed
    network, whatever their view channels are; the first three channels
    are the colour. *)
Theorem forward_density_view_independent (Dp Wd ic icv oc : nat)
    (sk : list nat) (s : heap) (x x' o o' : tensor R) :
  ncols x = ic + icv -> ncols x' = ic + icv ->
  map (take ic) (rows x) = map (take ic) (rows x') ->
  forward (NeRF_init init Dp Wd ic icv oc sk true s).1 x = Ok o ->
  forward (NeRF_init init Dp Wd ic icv oc sk true s).1 x' = Ok o' ->
  map (drop 3) (rows o) = map (drop 3) (rows o') ∧
  Forall (fun r => length r = 1) (map (drop 3) (rows o)) ∧
  Forall (fun r => length r = 3) (map (take 3) (rows o)).
Proof.
  intros Hcx Hcx' Hpts H1 H2.
  destruct (NeRF_init_spec init Dp Wd ic icv oc sk true s)
    as (l0 & ls & v0 & fl & al & rl & ol & E & _ & _ & _ & _ & Hh & _).
  destruct Hh as (f & a & r & -> & -> & -> & -> & _ & Ha & Hr).
  rewrite E in H1, H2. cbn [fst] in H1, H2. unfold forward, trunk in H1, H2.
  cbn [input_ch input_ch_views use_viewdirs skips pts_linears views_linears
       alpha_linear feature_linear rgb_linear getattr] in H1, H2.
  rewrite torch_split_ok, bind_Ok in H1 by exact Hcx.
  rewrite torch_split_ok, bind_Ok in H2 by exact Hcx'.
  cbn beta iota in H1, H2. rewrite <- Hpts in H2.
  bind_inv H1 h T1. rewrite !bind_Ok in H2. rewrite bind_Ok in H1.
  bind_inv H1 alpha A1. rewrite !bind_Ok in H2. rewrite bind_Ok in H1.
  bind_inv H1 feat F1. rewrite bind_Ok in H2.
  bind_inv H1 c C1. bind_inv H2 c' C2.
  bind_inv H1 w W1. bind_inv H2 w' W2.
  rewrite bind_Ok in H1, H2.
  bind_inv H1 rgb R1. bind_inv H2 rgb' R2.
  destruct (rows_cat_last _ _ _ H1) as [-> Hn1].
  destruct (rows_cat_last _ _ _ H2) as [-> Hn2].
  assert (Forall (fun r => length r = 3) (rows rgb)) as Hl1
    by (rewrite (rows_Linear_forward _ _ _ R1); eapply Forall_affine_length, Hr).
  assert (Forall (fun r => length r = 3) (rows rgb')) as Hl2
    by (rewrite (rows_Linear_forward _ _ _ R2); eapply Forall_affine_length, Hr).
  rewrite !drop_zip_app by assumption.
  split; [reflexivity|]. split.
  - rewrite (rows_Linear_forward _ _ _ A1). eapply Forall_affine_length, Ha.
  - clear -Hl1 Hn1. unfold nrows in Hn1. revert Hn1.
    generalize (rows alpha). induction Hl1 as [|r0 rs Hr0 _ IH];
      intros [|q qs] Hlen; try discriminate; cbn [zip_with map]; constructor.
    + rewrite take_app_length' by (symmetry; exact Hr0). exact Hr0.
    + apply IH. simpl in Hlen. lia.
Qed.

Lemma trunk_loop_skips_ext (sk sk' : list nat) (pts : tensor R)
    (ls : list (@Linear R)) (i : nat) (h : tensor R) :
  (forall j, i <= j < i + length ls -> (j ∈ sk <-> j ∈ sk')) ->
  trunk_loop sk pts i ls h = trunk_loop sk' pts i ls h.
Proof.
  revert i h. induction ls as [|l ls IH]; intros i h Hext; [reflexivity|].
  cbn [trunk_loop]. cbn [length] in Hext.
  rewrite (bool_decide_ext (i ∈ sk) (i ∈ sk')) by (apply Hext; lia).
  destruct (Linear_forward l h) as [h1|]; [|reflexivity].
  rewrite !bind_Ok. cbn zeta.
  destruct (if bool_decide (i ∈ sk') then cat_last pts (F_relu h1)
            else Ok (F_relu h1)) as [h2|]; [|reflexivity].
  rewrite !bind_Ok. apply IH. intros j Hj. apply Hext. lia.
Qed.

(** X5: skip indices at or beyond the number of trunk layers are
    ignored.  Two skip lists that agree below [max(D, 1)] give networks
    that compute the same function (from the same initial values); in
    particular a skip list with no index below [max(D, 1)] gives the
    network without skip connections. *)
Theorem forward_skips_beyond_depth (Dp Wd ic icv oc : nat)
    (sk sk' : list nat) (uv : bool) (s : heap) (x : tensor R) :
  (forall j, j < Nat.max Dp 1 -> (j ∈ sk <-> j ∈ sk')) ->
  forward (NeRF_init init Dp Wd ic icv oc sk uv s).1 x
    = forward (NeRF_init init Dp Wd ic icv oc sk' uv s).1 x.
Proof.
  intros Hext. unfold NeRF_init.
  rewrite (mapM_ext
             (fun i => if bool_decide (i ∈ sk)
                       then nn_Linear init (Wd + ic) Wd else nn_Linear init Wd Wd)
             (fun i => if bool_decide (i ∈ sk')
                       then nn_Linear init (Wd + ic) Wd else nn_Linear init Wd Wd)).
  2:{ intros j Hj. apply elem_of_seq in Hj.
      rewrite (bool_decide_ext (j ∈ sk) (j ∈ sk')) by (apply Hext; lia).
      reflexivity. }
  unfold mbind, alloc_bind.
  destruct (nn_Linear init ic Wd s) as [l0 s1].
  destruct (mapM _ (seq 0 (Dp - 1)) s1) as [ls s2] eqn:Els.
  apply mapM_length in Els. rewrite length_seq in Els.
  destruct (nn_Linear init (icv + Wd) (Wd / 2) s2) as [v0 s3].
  destruct (NeRF_heads init Wd oc uv s3) as [[[[fl al] rl] ol] s4].
  unfold built. cbn [fst]. unfold forward, trunk.
  cbn [input_ch input_ch_views use_viewdirs skips pts_linears views_linears
       alpha_linear feature_linear rgb_linear output_linear].
  destruct (torch_split x ic icv) as [[pts views]|]; [|reflexivity].
  rewrite !bind_Ok. cbn beta iota.
  rewrite (trunk_loop_skips_ext sk sk'); [reflexivity|].
  intros j Hj. apply Hext. cbn [length] in Hj. lia.
Qed.

End DensityFacts.

Lemma forward_last_skip_raises_witness :
  forward (NeRF_init sample_init 5 2 1 1 4 [4] true fresh_heap).1 sample_batch
    = Raise (MatmulShapeError (2 + 1) 2).
Proof.
  apply forward_last_skip_raises.
  - repeat constructor.
  - reflexivity.
  - apply list_elem_of_here.
  - lia.
Defined.


Lemma forward_preserves_batch_witness :
  nrows (Tensor 4 [[9161; 10077; 10993; 164]; [11621; 12783; 13945; 208]]%Z)
    = nrows sample_batch.
Proof.
  apply (forward_preserves_batch sample_view_net sample_batch).
  vm_compute. reflexivity.
Defined.

Lemma forward_density_view_independent_witness :
  map (drop 3)
      (rows (Tensor 4 [[9161; 10077; 10993; 164]; [11621; 12783; 13945; 208]]%Z))
    = map (drop 3)
        (rows (Tensor 4 [[9261; 10187; 11113; 164]; [11721; 12893; 14065; 208]]%Z)).
Proof.
  apply (forward_density_view_independent sample_init 2 2 1 1 4 [4] fresh_heap
           sample_batch sample_batch'); vm_compute; reflexivity.
Defined.

Lemma forward_skips_beyond_depth_witness :
  forward (NeRF_init sample_init 2 2 1 1 4 [4] true fresh_heap).1 sample_batch
    = forward (NeRF_init sample_init 2 2 1 1 4 [] true fresh_heap).1 sample_batch.
Proof.
  apply forward_skips_beyond_depth. intros j Hj. split; intros Hin.
  - apply list_elem_of_singleton in Hin. cbn in Hj. lia.
  - apply elem_of_nil in Hin. contradiction.
Defined.

(** ** More on [LitJaxNeRF]: the settings, the hooks and the steps *)

Section SettingsFacts.
Context {R : Type} `{Scalar R}.
Variable init : nat -> nat -> nat -> R.
Variable get_embedder : Z -> Z -> @embed_fn R * nat.

(** X6: both settings dictionaries hold the networks of the module
    itself: ["network_fn"] is [self.model] and ["network_fine"] is
    [self.model_fine] ([None] exactly when [num_fine_samples <= 0]), in
    the training and in the evaluation settings alike, so evaluation
    renders with the very parameters that training updates. *)
Theorem create_model_shares_networks (a : @Args R) (i : @Info R) (s : heap) :
  let lit := (create_model init get_embedder a i s).1 in
  render_kwargs_train lit !! "network_fn" = Some (VNet (model lit)) ∧
  render_kwargs_test lit !! "network_fn" = Some (VNet (model lit)) ∧
  render_kwargs_train lit !! "network_fine"
    = Some (option_value (model_fine lit)) ∧
  render_kwargs_test lit !! "network_fine"
    = Some (option_value (model_fine lit)) ∧
  (render_kwargs_test lit !! "network_fine" = Some VNone
     <-> (num_fine_samples a <= 0)%Z).
Proof.
  cbn zeta. rewrite create_model_eq. cbn zeta.
  cbn [fst render_kwargs_test render_kwargs_train model model_fine].
  set (q := QueryFn _ _ _). set (m := (NeRF_init _ _ _ _ _ _ _ _ _).1).
  set (m2 := (NeRF_init _ _ _ _ _ _ _ _ _).1).
  assert (forall mf,
            make_render_kwargs_train a i q m mf !! "network_fn" = Some (VNet m) ∧
            make_render_kwargs_train a i q m mf !! "network_fine"
              = Some (option_value mf)) as Htrain.
  { intros mf. unfold make_render_kwargs_train.
    destruct (bool_decide (dataset_type a ≠ "llff") || no_ndc a);
      split; by simplify_map_eq. }
  unfold make_render_kwargs_test. rewrite dict_copy_id.
  rewrite !lookup_insert_ne by discriminate.
  destruct (Htrain (if (0 <? num_fine_samples a)%Z then Some m2 else None))
    as [-> ->].
  do 4 (split; [reflexivity|]).
  destruct (Z.ltb_spec 0 (num_fine_samples a)); cbn [option_value]; split;
    first [discriminate | lia | reflexivity].
Qed.

(** X7: the keys ["ndc"] and ["lindisp"] are passed to the renderer
    exactly when the dataset type is not ["llff"] or [no_ndc] is set;
    for an LLFF scene with NDC both keys are absent from the training
    and the evaluation settings, so [args.lindisp] is not forwarded. *)
Theorem create_model_ndc_keys (a : @Args R) (i : @Info R) (s : heap) :
  let lit := (create_model init get_embedder a i s).1 in
  let off_ndc := bool_decide (dataset_type a ≠ "llff") || no_ndc a in
  render_kwargs_train lit !! "ndc"
    = (if off_ndc then Some (VBool false) else None) ∧
  render_kwargs_train lit !! "lindisp"
    = (if off_ndc then Some (lindisp a) else None) ∧
  render_kwargs_test lit !! "ndc" = render_kwargs_train lit !! "ndc" ∧
  render_kwargs_test lit !! "lindisp" = render_kwargs_train lit !! "lindisp".
Proof.
  cbn zeta. rewrite create_model_eq. cbn zeta.
  cbn [fst render_kwargs_test render_kwargs_train].
  unfold make_render_kwargs_test. rewrite dict_copy_id.
  rewrite !lookup_insert_ne by discriminate.
  unfold make_render_kwargs_train.
  destruct (bool_decide (dataset_type a ≠ "llff") || no_ndc a);
    repeat split; by simplify_map_eq.
Qed.

End SettingsFacts.

Section StepFacts.
Context {R : Type} `{Scalar R}.
Variable init : nat -> nat -> nat -> R.
Variable get_embedder : Z -> Z -> @embed_fn R * nat.
Variable utils_render :
  nat -> nat -> @value R -> Z -> tensor R -> @value R ->
  gmap string (@value R) -> result (@render_out R).
Variable img2mse : tensor R -> tensor R -> R.
Variable mse2psnr : R -> R.

(** X8: a module that no lifecycle hook has touched cannot render:
    [__init__] does not set [self.mode], so [forward] raises
    [AttributeError], and so do the steps on a batch with both keys. *)
Theorem forward_before_hooks (a : @Args R) (i : @Info R) (s : heap)
    (batch : gmap string (tensor R)) (rays target : tensor R)
    (batch_idx : nat) (lg : @logs R) :
  batch !! "ray" = Some rays -> batch !! "target" = Some target ->
  let lit := (LitJaxNeRF_init init get_embedder a i s).1 in
  Lit_forward utils_render lit rays = Raise (AttributeError "mode") ∧
  validation_step utils_render lit batch batch_idx
    = Raise (AttributeError "mode") ∧
  training_step utils_render img2mse mse2psnr lit batch batch_idx lg
    = (Raise (AttributeError "mode"), lg).
Proof.
  intros Hray Htarget. cbn zeta. unfold LitJaxNeRF_init.
  rewrite create_model_eq. cbn zeta. cbn [fst].
  assert (forall lit : @LitJaxNeRF R, mode lit = None ->
            Lit_forward utils_render lit rays = Raise (AttributeError "mode"))
    as Hf by (intros lit Hm; unfold Lit_forward; rewrite Hm; reflexivity).
  split; [apply Hf; reflexivity|]. split.
  - unfold validation_step, render_rays, dict_get.
    rewrite Hray, Htarget, !bind_Ok, Hf by reflexivity. reflexivity.
  - unfold training_step, mbind, py_bind, lift, dict_get.
    rewrite Hray, Htarget, Hf by reflexivity. reflexivity.
Qed.

(** X9: the hooks select the settings.  After [on_train_start] the
    module renders with the training settings; after
    [on_validation_start] or [on_test_start] the step renders with the
    evaluation settings and returns the colours and depths of the
    render next to the target of the batch. *)
Theorem steps_use_mode_settings (self : @LitJaxNeRF R)
    (batch : gmap string (tensor R)) (rays target : tensor R)
    (batch_idx : nat) :
  batch !! "ray" = Some rays -> batch !! "target" = Some target ->
  let render kwargs :=
    utils_render (info_h (info self)) (info_w (info self))
      (info_intrinsics (info self)) (chunk (args self)) rays
      (use_pixel_centers (args self)) kwargs in
  Lit_forward utils_render (on_train_start self) rays
    = render (render_kwargs_train self) ∧
  validation_step utils_render (on_validation_start self) batch batch_idx
    = (out ← render (render_kwargs_test self);
       Ok (StepOut (r_rgb out) (r_depth out) target)) ∧
  test_step utils_render (on_test_start self) batch batch_idx
    = (out ← render (render_kwargs_test self);
       Ok (StepOut (r_rgb out) (r_depth out) target)).
Proof.
  intros Hray Htarget. cbn zeta. split; [reflexivity|].
  unfold validation_step, test_step, render_rays, dict_get.
  rewrite Hray, Htarget, !bind_Ok. split; reflexivity.
Qed.

(** X10: [training_step] returns a loss exactly when the batch has both
    keys, the render succeeds and its extras hold ["rgb0"]; the loss is
    then the sum of the two errors and exactly three entries are
    logged. *)
Theorem training_step_Ok_iff (self : @LitJaxNeRF R)
    (batch : gmap string (tensor R)) (batch_idx : nat) (lg lg' : @logs R)
    (loss : R) :
  training_step utils_render img2mse mse2psnr self batch batch_idx lg
    = (Ok loss, lg')
  <-> exists rays target out rgb0,
        batch !! "ray" = Some rays ∧ batch !! "target" = Some target ∧
        Lit_forward utils_render self rays = Ok out ∧
        r_extras out !! "rgb0" = Some rgb0 ∧
        loss = add (img2mse (r_rgb out) target) (img2mse rgb0 target) ∧
        lg' = lg ++ [("train/psnr1", mse2psnr (img2mse (r_rgb out) target));
                     ("train/psnr0", mse2psnr (img2mse rgb0 target));
                     ("train/loss", loss)].
Proof.
  unfold training_step, mbind, py_bind, lift, dict_get. split.
  - destruct (batch !! "ray") as [rays|]; [|discriminate].
    destruct (batch !! "target") as [target|]; [|discriminate].
    destruct (Lit_forward utils_render self rays) as [out|] eqn:Hout;
      [|discriminate].
    destruct (r_extras out !! "rgb0") as [rgb0|] eqn:Hrgb0; [|discriminate].
    cbn [read_local]. unfold self_log, mret, py_ret.
    intros [= <- <-]. exists rays, target, out, rgb0.
    rewrite Hrgb0, <- !app_assoc. auto 10.
  - intros (rays & target & out & rgb0 & -> & -> & -> & -> & -> & ->).
    cbn [read_local]. unfold self_log, mret, py_ret.
    rewrite <- !app_assoc. reflexivity.
Qed.

(** X11: a step that fails before the loss logs nothing and surfaces the
    first failure: a missing ["ray"], else a missing ["target"], else
    the error of the render. *)
Theorem training_step_early_failure (self : @LitJaxNeRF R)
    (batch : gmap string (tensor R)) (batch_idx : nat) (lg : @logs R) :
  let step :=
    training_step utils_render img2mse mse2psnr self batch batch_idx lg in
  (batch !! "ray" = None -> step = (Raise (KeyError "ray"), lg)) ∧
  (forall rays, batch !! "ray" = Some rays -> batch !! "target" = None ->
     step = (Raise (KeyError "target"), lg)) ∧
  (forall rays target e,
     batch !! "ray" = Some rays -> batch !! "target" = Some target ->
     Lit_forward utils_render self rays = Raise e -> step = (Raise e, lg)).
Proof.
  cbn zeta. unfold training_step, mbind, py_bind, lift, dict_get.
  split; [|split].
  - intros ->. reflexivity.
  - intros rays -> ->. reflexivity.
  - intros rays target e -> -> ->. reflexivity.
Qed.

End StepFacts.

Lemma forward_before_hooks_witness :
  validation_step sample_render sample_lit sample_train_batch 0
    = Raise (AttributeError "mode").
Proof.
  apply (forward_before_hooks sample_init sample_embedder sample_render
           sample_img2mse sample_mse2psnr sample_args sample_info fresh_heap
           sample_train_batch sample_batch sample_batch' 0 []);
    reflexivity.
Defined.

Lemma steps_use_mode_settings_witness :
  validation_step sample_render (on_validation_start sample_lit)
      sample_train_batch 0
    = Ok (StepOut sample_batch [] sample_batch').
Proof.
  assert (sample_train_batch !! "ray" = Some sample_batch) as Hray
    by (vm_compute; reflexivity).
  assert (sample_train_batch !! "target" = Some sample_batch') as Htarget
    by (vm_compute; reflexivity).
  pose proof (steps_use_mode_settings sample_render sample_lit
                sample_train_batch sample_batch sample_batch' 0 Hray Htarget)
    as Hsteps.
  cbn zeta in Hsteps. destruct Hsteps as (_ & Hval & _).
  rewrite Hval. vm_compute. reflexivity.
Defined.

Lemma training_step_Ok_iff_witness :
  exists rays target out rgb0,
    sample_train_batch !! "ray" = Some rays ∧
    sample_train_batch !! "target" = Some target ∧
    Lit_forward sample_render (on_train_start sample_lit) rays = Ok out ∧
    r_extras out !! "rgb0" = Some rgb0.
Proof.
  destruct (proj1 (training_step_Ok_iff sample_render sample_img2mse
                     sample_mse2psnr (on_train_start sample_lit)
                     sample_train_batch 0 []
                     [("train/psnr1", (-50)%Z); ("train/psnr0", (-50)%Z);
                      ("train/loss", 100%Z)] 100%Z))
    as (rays & target & out & rgb0 & H1 & H2 & H3 & H4 & _).
  - vm_compute. reflexivity.
  - exists rays, target, out, rgb0. auto.
Defined.

Lemma training_step_early_failure_witness :
  training_step sample_render sample_img2mse sample_mse2psnr
      (on_train_start sample_lit) {["ray" := sample_batch]} 0 []
    = (Raise (KeyError "target"), []).
Proof.
  apply (proj1 (proj2 (training_step_early_failure sample_render sample_img2mse
                         sample_mse2psnr (on_train_start sample_lit)
                         {["ray" := sample_batch]} 0 []))
           sample_batch); reflexivity.
Defined.

(** ** More on the epoch ends *)

Lemma slice_to_pos {A} (k : Z) (l : list A) :
  (0 <= k)%Z -> slice_to k l = take (Z.to_nat k) l.
Proof.
  intros Hk. unfold slice_to.
  destruct (Z.ltb_spec k 0) as [|_]; [lia|].
  destruct (Z.le_gt_cases k (Z.of_nat (length l))) as [Hle|Hgt].
  - rewrite Z.min_l by exact Hle. reflexivity.
  - rewrite Z.min_r, Nat2Z.id by lia. rewrite !take_ge by lia. reflexivity.
Qed.

Lemma length_concat_wf {A} {t : tensor A} :
  wf_tensor t -> length (concat (rows t)) = nrows t * ncols t.
Proof.
  unfold wf_tensor, nrows. generalize (ncols t). intros c Hwf.
  induction Hwf as [|r rs Hr _ IH]; [reflexivity|].
  cbn [concat length]. rewrite length_app, IH, Hr. lia.
Qed.

Lemma reshape_replicate_Forall {A} (P : A -> Prop) (k c : nat) (l : list A) :
  Forall P l -> length l = k * c ->
  Forall (fun r => length r = c ∧ Forall P r) (reshape (replicate k c) l).
Proof.
  revert l. induction k as [|k IH]; intros l HP Hlen; [constructor|].
  cbn [replicate reshape]. constructor.
  - split; [rewrite length_take; lia | apply Forall_take, HP].
  - apply IH; [apply Forall_drop, HP | rewrite length_drop; lia].
Qed.

Lemma reshape_rows_ok {A} {s : nat} {t : tensor A} :
  wf_tensor t -> ncols t = 3 -> 0 < s -> nrows t mod s = 0 ->
  reshape_rows (s * 3) t
    = Ok (Tensor (s * 3)
            (reshape (replicate (nrows t / s) (s * 3)) (concat (rows t)))).
Proof.
  intros Hwf Hc Hs Hmod. unfold reshape_rows.
  rewrite (length_concat_wf Hwf), Hc.
  destruct (Nat.eqb_spec (s * 3) 0) as [|_]; [lia|].
  rewrite Nat.Div0.mul_mod_distr_r, Hmod. cbn [Nat.mul Nat.eqb].
  rewrite Nat.Div0.div_mul_cancel_r by lia. reflexivity.
Qed.

Lemma reshape_rows_raise {A} {s : nat} {t : tensor A} :
  wf_tensor t -> ncols t = 3 -> s = 0 ∨ nrows t mod s ≠ 0 ->
  reshape_rows (s * 3) t = Raise ReshapeError.
Proof.
  intros Hwf Hc Hbad. unfold reshape_rows.
  rewrite (length_concat_wf Hwf), Hc.
  destruct (Nat.eqb_spec (s * 3) 0) as [|Hs]; [reflexivity|].
  destruct Hbad as [->|Hmod]; [lia|].
  rewrite Nat.Div0.mul_mod_distr_r.
  destruct (Nat.eqb_spec (nrows t mod s * 3) 0) as [E|]; [lia | reflexivity].
Qed.

Lemma f32_sub_diag {x : spec_float} :
  is_finite x = true -> f32_sub x x = S754_zero false.
Proof.
  destruct x as [[]| | |s m e]; try discriminate; intros _; try reflexivity.
  unfold f32_sub, SFsub, shl_align.
  change IntDef.Z.sub with Z.sub. change IntDef.Z.min with Z.min.
  rewrite Z.sub_diag. reflexivity.
Qed.

Lemma f32_sum_zeros (n : nat) :
  foldl f32_add (S754_zero false) (replicate n (S754_zero false))
    = S754_zero false.
Proof. induction n as [|n IH]; [reflexivity | exact IH]. Qed.

Lemma f32_zero_over_count (c : nat) :
  f32_nonzero_number (f32_of_nat c) = true ->
  f32_div (S754_zero false) (f32_of_nat c) = S754_zero false.
Proof.
  unfold f32_of_nat, binary_normalize. destruct c as [|c]; [discriminate|].
  change (Z.of_nat (S c)) with (Z.pos (Pos.of_succ_nat c)). cbv iota.
  unfold binary_round.
  match goal with
  | |- context [shl_align ?m ?e ?e'] => destruct (shl_align m e e') as [mz ez]
  end.
  unfold binary_round_aux.
  match goal with
  | |- context [shr_fexp ?p ?x ?m ?e ?l] =>
      destruct (shr_fexp p x m e l) as [m1 e1]
  end.
  match goal with
  | |- context [shr_fexp ?p ?x ?m ?e ?l] =>
      destruct (shr_fexp p x m e l) as [m2 e2]
  end.
  destruct (shr_m m2); [discriminate | | discriminate].
  match goal with
  | |- context [if ?b then _ else _] => destruct b
  end; reflexivity.
Qed.

(** The mean-squared error of an image against itself. *)
Lemma f32_mse_self (r : list spec_float) :
  Forall (fun v => is_finite v = true) r ->
  f32_nonzero_number (f32_of_nat (length r)) = true ->
  f32_mean (map (fun d => f32_mul d d) (zip_with f32_sub r r))
    = S754_zero false.
Proof.
  intros Hfin Hcount.
  assert (map (fun d => f32_mul d d) (zip_with f32_sub r r)
          = replicate (length r) (S754_zero false)) as ->.
  { clear Hcount. induction Hfin as [|v r Hv _ IH]; [reflexivity|].
    cbn [zip_with map length replicate].
    rewrite (f32_sub_diag Hv), IH. reflexivity. }
  unfold f32_mean. rewrite f32_sum_zeros, length_replicate.
  apply f32_zero_over_count, Hcount.
Qed.

Lemma f32_mse_rows_self {c : nat} {L : list (list spec_float)} :
  Forall (fun r => length r = c ∧ Forall (fun v => is_finite v = true) r) L ->
  f32_nonzero_number (f32_of_nat c) = true ->
  map (fun r => f32_mean (map (fun d => f32_mul d d) r))
      (zip_with (zip_with f32_sub) L L)
    = replicate (length L) (S754_zero false).
Proof.
  intros HL Hcount. induction HL as [|r rs [Hlen Hr] _ IH]; [reflexivity|].
  cbn [zip_with map length replicate]. rewrite IH. f_equal.
  apply f32_mse_self; [exact Hr | rewrite Hlen; exact Hcount].
Qed.

Section EpochFacts.
Context {R : Type}.
Variable tlog : spec_float -> spec_float.
Variable all_gather :
  list (@step_output spec_float) -> list (@gathered_output spec_float).

(** X12: a negative dummy count is not rejected: [x[:-dummy_num]] then
    has a positive stop, and [gather_results] keeps only the first
    [-dummy_num] gathered rows of each tensor. *)
Theorem gather_results_negative_dummy (c : nat)
    (outputs : list (@step_output spec_float)) (dummy_num : Z) :
  all_gather outputs ≠ [] ->
  Forall (gathered_ok c) (all_gather outputs) ->
  (dummy_num < 0)%Z ->
  let k := Z.to_nat (- dummy_num) in
  gather_results all_gather outputs dummy_num
    = Ok (Tensor c (take k (gathered_rows g_rgb (all_gather outputs))),
          Tensor c (take k (gathered_rows g_target (all_gather outputs))),
          take k (gathered_depths (all_gather outputs))).
Proof.
  intros Hne Hok Hd. cbn zeta.
  assert (Forall (fun g => stacked c (g_rgb g)) (all_gather outputs)) as Hr
    by (eapply Forall_impl; [exact Hok | intros g (? & ? & ?); assumption]).
  assert (Forall (fun g => stacked c (g_target g)) (all_gather outputs)) as Ht
    by (eapply Forall_impl; [exact Hok | intros g (? & ? & ?); assumption]).
  assert (Forall (fun g => g_depth g ≠ []) (all_gather outputs)) as Hdp
    by (eapply Forall_impl; [exact Hok | intros g (? & ? & ?); assumption]).
  pose proof (gather_field Hne Hr) as Er.
  pose proof (gather_field Hne Ht) as Et.
  pose proof (gather_depths Hne Hdp) as Ed.
  unfold gather_results. cbn zeta. revert Er Et Ed. unfold mbind, result_bind.
  destruct (mapR (fun out => cat_rows (g_rgb out)) (all_gather outputs))
    as [ts|]; [|discriminate]. intros ->.
  destruct (mapR (fun out => cat_rows (g_target out)) (all_gather outputs))
    as [ts'|]; [|discriminate]. intros ->.
  destruct (mapR (fun out => cat_vec (g_depth out)) (all_gather outputs))
    as [vs|]; [|discriminate]. intros ->.
  rewrite bool_decide_eq_true_2 by lia.
  unfold tensor_slice_to. cbn [ncols rows].
  rewrite !slice_to_pos by lia. reflexivity.
Qed.

(** X13: validation yields one error per image.  When the trimmed
    colours and targets are well-formed three-channel tensors of [n]
    rows each and [n] is a positive multiple of the image size, the
    error vector has [n / img_size] entries. *)
Theorem validation_mse_one_per_image (self : @LitJaxNeRF R)
    (outputs : list (@step_output spec_float))
    (rgbs target : tensor spec_float) (depths : list spec_float) :
  gather_results all_gather outputs (info_val_dummy (info self))
    = Ok (rgbs, target, depths) ->
  wf_tensor rgbs -> wf_tensor target ->
  ncols rgbs = 3 -> ncols target = 3 -> nrows target = nrows rgbs ->
  0 < img_size self -> nrows rgbs mod img_size self = 0 ->
  exists mse,
    validation_mse all_gather self outputs = Ok mse ∧
    length mse = nrows rgbs / img_size self.
Proof.
  intros Hg Hwr Hwt Hcr Hct Hn Hs Hmod. unfold validation_mse.
  rewrite Hg, bind_Ok. cbn beta iota.
  rewrite (reshape_rows_ok Hwr Hcr Hs Hmod), bind_Ok.
  rewrite (reshape_rows_ok Hwt Hct Hs) by (rewrite Hn; exact Hmod).
  rewrite bind_Ok, Hn. unfold tensor_sub, nrows. cbn [ncols rows].
  rewrite !length_reshape, !Nat.eqb_refl. cbn [negb]. rewrite bind_Ok.
  eexists. split; [reflexivity|]. cbn [rows].
  rewrite length_map, length_zip_with, !length_reshape, length_replicate. lia.
Qed.

(** X14: when the number of trimmed rows is not a multiple of the image
    size, or the image size is zero, the first [reshape] of
    [validation_epoch_end] raises: a wrong dummy count is detected here
    and not before. *)
Theorem validation_mse_partial_image (self : @LitJaxNeRF R)
    (outputs : list (@step_output spec_float))
    (rgbs target : tensor spec_float) (depths : list spec_float) :
  gather_results all_gather outputs (info_val_dummy (info self))
    = Ok (rgbs, target, depths) ->
  wf_tensor rgbs -> ncols rgbs = 3 ->
  img_size self = 0 ∨ nrows rgbs mod img_size self ≠ 0 ->
  validation_mse all_gather self outputs = Raise ReshapeError ∧
  validation_psnr tlog all_gather self outputs = Raise ReshapeError.
Proof.
  intros Hg Hwr Hcr Hbad.
  assert (validation_mse all_gather self outputs = Raise ReshapeError) as E.
  { unfold validation_mse. rewrite Hg, bind_Ok. cbn beta iota.
    rewrite (reshape_rows_raise Hwr Hcr Hbad). reflexivity. }
  split; [exact E|]. unfold validation_psnr. rewrite E. reflexivity.
Qed.

(** X15: images that are rendered exactly have no finite PSNR.  When
    the trimmed colours equal the targets, with finite entries, every
    per-image error is [+0] and, the logarithm of zero being minus
    infinity, every per-image PSNR is plus infinity. *)
Theorem validation_psnr_perfect_render (self : @LitJaxNeRF R)
    (outputs : list (@step_output spec_float))
    (rgbs : tensor spec_float) (depths : list spec_float) :
  gather_results all_gather outputs (info_val_dummy (info self))
    = Ok (rgbs, rgbs, depths) ->
  wf_tensor rgbs -> ncols rgbs = 3 ->
  Forall (Forall (fun v => is_finite v = true)) (rows rgbs) ->
  0 < img_size self -> nrows rgbs mod img_size self = 0 ->
  f32_nonzero_number (f32_of_nat (img_size self * 3)) = true ->
  (forall s, tlog (S754_zero s) = S754_infinity true) ->
  validation_mse all_gather self outputs
    = Ok (replicate (nrows rgbs / img_size self) (S754_zero false)) ∧
  validation_psnr tlog all_gather self outputs
    = Ok (replicate (nrows rgbs / img_size self) (S754_infinity false)).
Proof.
  intros Hg Hwr Hcr Hfin Hs Hmod Hcount Hlog.
  assert (validation_mse all_gather self outputs
          = Ok (replicate (nrows rgbs / img_size self) (S754_zero false))) as E.
  { unfold validation_mse. rewrite Hg, bind_Ok. cbn beta iota.
    rewrite (reshape_rows_ok Hwr Hcr Hs Hmod), !bind_Ok.
    unfold tensor_sub, nrows. cbn [ncols rows].
    rewrite !Nat.eqb_refl. cbn [negb]. rewrite bind_Ok. cbn [rows].
    unfold mret, result_ret. f_equal.
    assert (Forall (fun r => length r = img_size self * 3
                             ∧ Forall (fun v => is_finite v = true) r)
              (reshape (replicate (nrows rgbs / img_size self)
                          (img_size self * 3)) (concat (rows rgbs)))) as Hrows.
    { apply reshape_replicate_Forall.
      - apply Forall_concat, Hfin.
      - rewrite (length_concat_wf Hwr), Hcr.
        pose proof (Nat.Div0.div_mod (nrows rgbs) (img_size self)) as Hdm.
        rewrite Hmod in Hdm. nia. }
    change (length (rows rgbs)) with (nrows rgbs).
    rewrite (f32_mse_rows_self Hrows Hcount), length_reshape, length_replicate.
    reflexivity. }
  split; [exact E|]. unfold validation_psnr. rewrite E, bind_Ok.
  unfold mret, result_ret. f_equal. clear E.
  induction (nrows rgbs / img_size self) as [|n IH]; [reflexivity|].
  cbn [replicate map]. rewrite IH. f_equal. apply psnr_of_zero_mse, Hlog.
Qed.

End EpochFacts.

(** ** [run.py]: when validation runs *)

Section CallbackFacts.
Context {Trainer : Type}.
Variable global_step : Trainer -> Z.
Variable run_evaluation : Trainer -> Trainer.

(** X16: [ValEveryNSteps.on_batch_end] runs the evaluation exactly at
    the steps that are non-zero multiples of the interval, and leaves
    the trainer alone at every other step, step 0 included; with an
    interval of zero it raises [ZeroDivisionError] at every step. *)
Theorem on_batch_end_fires (every_n_step : Z) (trainer : Trainer) :
  let fires := global_step trainer ≠ 0%Z
               ∧ (every_n_step | global_step trainer)%Z in
  (every_n_step = 0%Z ->
     on_batch_end global_step run_evaluation every_n_step trainer
       = ZeroDivisionError) ∧
  (every_n_step ≠ 0%Z -> fires ->
     on_batch_end global_step run_evaluation every_n_step trainer
       = Returns (run_evaluation trainer)) ∧
  (every_n_step ≠ 0%Z -> ~ fires ->
     on_batch_end global_step run_evaluation every_n_step trainer
       = Returns trainer).
Proof.
  cbn zeta. unfold on_batch_end, py_mod. split; [|split].
  - intros ->. reflexivity.
  - intros Hn [Hg Hdiv]. apply (Z.mod_divide _ _ Hn) in Hdiv.
    destruct (Z.eqb_spec every_n_step 0) as [|_]; [contradiction|].
    rewrite Hdiv. destruct (Z.eqb_spec (global_step trainer) 0);
      [contradiction | reflexivity].
  - intros Hn Hno.
    destruct (Z.eqb_spec every_n_step 0) as [|_]; [contradiction|].
    destruct (Z.eqb_spec (global_step trainer mod every_n_step) 0) as [Hm|Hm];
      [|reflexivity].
    destruct (Z.eqb_spec (global_step trainer) 0) as [Hg|Hg]; [reflexivity|].
    exfalso. apply Hno. split; [exact Hg|]. apply (Z.mod_divide _ _ Hn), Hm.
Qed.

End CallbackFacts.

Lemma gather_results_negative_dummy_witness :
  gather_results sample_all_gather [sample_val_step] (-1)
    = Ok (Tensor 3 [[f32_one; f32_half; f32_one]],
          Tensor 3 [[f32_one; f32_half; f32_one]],
          [f32_one]).
Proof.
  etransitivity.
  - apply (gather_results_negative_dummy sample_all_gather 3 [sample_val_step]).
    + discriminate.
    + repeat constructor; discriminate.
    + lia.
  - reflexivity.
Defined.

Lemma validation_mse_one_per_image_witness :
  exists mse,
    validation_mse sample_all_gather sample_lit [sample_val_step] = Ok mse ∧
    length mse = 2.
Proof.
  destruct (validation_mse_one_per_image sample_all_gather sample_lit
              [sample_val_step]
              (Tensor 3 [[f32_one; f32_half; f32_one];
                         [f32_half; f32_half; f32_half]])
              (Tensor 3 [[f32_one; f32_half; f32_one];
                         [f32_half; f32_one; f32_half]])
              [f32_one; f32_half]) as (mse & E & Hlen).
  - vm_compute. reflexivity.
  - repeat constructor.
  - repeat constructor.
  - reflexivity.
  - reflexivity.
  - reflexivity.
  - vm_compute. lia.
  - vm_compute. reflexivity.
  - exists mse. split; [exact E | exact Hlen].
Defined.

Lemma validation_mse_partial_image_witness :
  validation_mse sample_all_gather
      (MkLit sample_args sample_info 3 sample_view_net None ∅ ∅ 0 None)
      [sample_val_step]
    = Raise ReshapeError.
Proof.
  apply (validation_mse_partial_image sample_log sample_all_gather
           (MkLit sample_args sample_info 3 sample_view_net None ∅ ∅ 0 None)
           [sample_val_step]
           (Tensor 3 [[f32_one; f32_half; f32_one];
                      [f32_half; f32_half; f32_half]])
           (Tensor 3 [[f32_one; f32_half; f32_one];
                      [f32_half; f32_one; f32_half]])
           [f32_one; f32_half]).
  - vm_compute. reflexivity.
  - repeat constructor.
  - reflexivity.
  - right. vm_compute. discriminate.
Defined.

Lemma validation_psnr_perfect_render_witness :
  validation_psnr sample_log sample_all_gather sample_lit [sample_perfect_step]
    = Ok [S754_infinity false; S754_infinity false].
Proof.
  apply (validation_psnr_perfect_render sample_log sample_all_gather sample_lit
           [sample_perfect_step]
           (Tensor 3 [[f32_one; f32_half; f32_one];
                      [f32_half; f32_half; f32_half]])
           [f32_one; f32_half]).
  - vm_compute. reflexivity.
  - repeat constructor.
  - reflexivity.
  - repeat constructor.
  - vm_compute. lia.
  - vm_compute. reflexivity.
  - vm_compute. reflexivity.
  - intros s. reflexivity.
Defined.

Lemma on_batch_end_fires_witness :
  on_batch_end fst sample_run_evaluation 500 (1000%Z, 0) = Returns (1000%Z, 1) ∧
  on_batch_end fst sample_run_evaluation 500 (750%Z, 0) = Returns (750%Z, 0) ∧
  on_batch_end fst sample_run_evaluation 0 (0%Z, 0) = ZeroDivisionError.
Proof.
  split; [|split].
  - apply (proj1 (proj2 (on_batch_end_fires fst sample_run_evaluation 500
                           (1000%Z, 0)))); [discriminate|].
    split; [discriminate | exists 2%Z; reflexivity].
  - apply (proj2 (proj2 (on_batch_end_fires fst sample_run_evaluation 500
                           (750%Z, 0)))); [discriminate|].
    intros [_ [q Hq]]. cbn [fst] in Hq. lia.
  - apply (proj1 (on_batch_end_fires fst sample_run_evaluation 0 (0%Z, 0))).
    reflexivity.
Defined.
